(** * Raydium RM69080 MIPI-DSI panel driver

    A shallow embedding of drivers/gpu/drm/panel/panel-raydium-rm69080.c:
    the vendor command table, the command sequencer [set_cmd_rm69080], the
    four lifecycle callbacks of [rm69080_funcs] and [rm69080_get_modes],
    followed by the properties of the panel state machine.

    The DSI host is a collaborator of the driver.  It is kept abstract: a
    type of host states with one transfer function that answers every
    request with a C [int].  A driver function is a computation that
    threads the host state and emits the events it causes (bus requests,
    sleeps and log lines) in program order. *)

From Stdlib Require Import ZArith List String Bool Lia.
Import ListNotations.
Open Scope string_scope.
Open Scope list_scope.
Open Scope Z_scope.

(** ** Data of the driver *)

(** [struct cmd_dsi]: two [u8] fields, held as integers. *)
Record cmd_dsi : Type := mk_cmd { cmd : Z; param : Z }.

Definition DSI_DRIVER_NAME : string := "kingtech-pv13900als20c".

Definition SLEEP_CMD : Z := 0.

(** [COUNT_CMD(x)] is [sizeof(x)/sizeof(x[0])], the length of the array. *)
Definition COUNT_CMD {A : Type} (x : list A) : nat := List.length x.

Definition rm69080_400x400_mod : list cmd_dsi :=
  [ mk_cmd 0xFE 0x05;
    mk_cmd 0x05 0x00;
    mk_cmd 0xFE 0x07;
    mk_cmd 0x07 0x4F;
    mk_cmd 0xFE 0x0A;
    mk_cmd 0x1C 0x1B;
    mk_cmd 0xFE 0x00;
    mk_cmd 0x35 0x00;
    mk_cmd 0x51 0xF0;
    mk_cmd 0x38 0x00;
    mk_cmd 0x11 0x00;
    mk_cmd SLEEP_CMD 0x96;
    mk_cmd SLEEP_CMD 0x96;
    mk_cmd 0x29 0x00 ].

(** [struct rm69080]: the two flags of the panel.  The [base], [dsi] and
    [i2c] members are handles; the bus behind [dsi] is the host state that
    every computation below threads. *)
Record rm69080 : Type := mk_rm69080 { prepared : bool; enabled : bool }.

Definition set_prepared (ctx : rm69080) (v : bool) : rm69080 :=
  {| prepared := v; enabled := enabled ctx |}.

Definition set_enabled (ctx : rm69080) (v : bool) : rm69080 :=
  {| prepared := prepared ctx; enabled := v |}.

(** [devm_kzalloc] hands [rm69080_probe] a zeroed context. *)
Definition rm69080_zeroed : rm69080 := {| prepared := false; enabled := false |}.

(** [struct drm_display_mode], with the members the driver reads or
    writes. *)
Record drm_display_mode : Type := mk_mode {
  clock : Z;
  hdisplay : Z;
  hsync_start : Z;
  hsync_end : Z;
  htotal : Z;
  vdisplay : Z;
  vsync_start : Z;
  vsync_end : Z;
  vtotal : Z;
  type : Z;
  width_mm : Z;
  height_mm : Z;
  name : string
}.

(** Members without an initializer are zero. *)
Definition drm_display_mode_zero : drm_display_mode :=
  mk_mode 0 0 0 0 0 0 0 0 0 0 0 0 "".

Definition rm69080_modes : list drm_display_mode :=
  [ {| clock := 11094;
       hdisplay := 400;
       hsync_start := 400 + 10;
       hsync_end := 400 + 10 + 10;
       htotal := 10 + 400 + 10 + 10;
       vdisplay := 400;
       vsync_start := 400 + 10;
       vsync_end := 400 + 10 + 10;
       vtotal := 10 + 400 + 10 + 10;
       type := 0;
       width_mm := 0;
       height_mm := 0;
       name := "" |} ].

Definition with_name (m : drm_display_mode) (s : string) : drm_display_mode :=
  mk_mode (clock m) (hdisplay m) (hsync_start m) (hsync_end m) (htotal m)
    (vdisplay m) (vsync_start m) (vsync_end m) (vtotal m)
    (type m) (width_mm m) (height_mm m) s.

Definition with_type (m : drm_display_mode) (t : Z) : drm_display_mode :=
  mk_mode (clock m) (hdisplay m) (hsync_start m) (hsync_end m) (htotal m)
    (vdisplay m) (vsync_start m) (vsync_end m) (vtotal m)
    t (width_mm m) (height_mm m) (name m).

(** [DRM_MODE_TYPE_DRIVER] is [1 << 6] in the DRM headers. *)
Definition DRM_MODE_TYPE_DRIVER : Z := Z.shiftl 1 6.

(** The DRM device, seen from the driver: whether it can still allocate a
    mode object. *)
Record drm_device : Type := mk_device { mode_alloc_ok : bool }.

(** [struct drm_connector]: its device, the physical size in
    [display_info], and the list of probed modes. *)
Record drm_connector : Type := mk_connector {
  dev : drm_device;
  display_info_width_mm : Z;
  display_info_height_mm : Z;
  probed_modes : list drm_display_mode
}.

Definition with_display_info (c : drm_connector) (w h : Z) : drm_connector :=
  mk_connector (dev c) w h (probed_modes c).

(** Modelled from the spec: [drm_mode_duplicate] is defined in drm_modes.c,
    which is not part of the driver file.  The spec speaks of "mode
    duplication/allocation in the collaborator", which may fail: the call
    gives a copy of the mode, or NULL when the allocation fails. *)
Definition drm_mode_duplicate (d : drm_device) (m : drm_display_mode)
  : option drm_display_mode :=
  if mode_alloc_ok d then Some m else None.

(** Modelled from the spec: [drm_mode_probed_add] is defined in drm_modes.c.
    The spec has the mode registered "with the mode registry collaborator":
    the mode joins the connector's list of probed modes, at its tail. *)
Definition drm_mode_probed_add (c : drm_connector) (m : drm_display_mode)
  : drm_connector :=
  mk_connector (dev c) (display_info_width_mm c) (display_info_height_mm c)
    (probed_modes c ++ [m]).

(** How a call ends: it returns, or it dereferences a NULL pointer. *)
Inductive outcome (A : Type) : Type :=
| Returns (a : A)
| NullDeref.
Arguments Returns {A} a.

(** The lifecycle callbacks of [struct drm_panel_funcs]. *)
Inductive panel_op : Type := OpDisable | OpUnprepare | OpPrepare | OpEnable.

(** ** The DSI host and the events of a run *)

(** The requests the driver sends to the host through drm_mipi_dsi. *)
Inductive dsi_req : Type :=
| GenericWrite (payload : list Z)
| DcsExitSleepMode
| DcsEnterSleepMode
| DcsSetDisplayOn
| DcsSetDisplayOff.

Inductive log_arg : Type :=
| ArgS (s : string)
| ArgD (z : Z).

Inductive event : Type :=
| Bus (req : dsi_req)
| Msleep (ms : Z)
| DevInfo (fmt : string) (args : list log_arg)
| DevErr (fmt : string) (args : list log_arg).

(** A host answers a request with the value the driver stores in its
    [int ret], and moves to a new state. *)
Class DsiHost (B : Type) : Type := { dsi_transfer : B -> dsi_req -> Z * B }.

(** What remains of a run once the log lines are dropped. *)
Definition is_hw (e : event) : bool :=
  match e with
  | Bus _ | Msleep _ => true
  | DevInfo _ _ | DevErr _ _ => false
  end.

Definition hw (t : list event) : list event := filter is_hw t.

Definition bus_reqs (t : list event) : list dsi_req :=
  flat_map (fun e => match e with Bus r => [r] | _ => [] end) t.

Definition sleeps (t : list event) : list Z :=
  flat_map (fun e => match e with Msleep ms => [ms] | _ => [] end) t.

(** ** Computations over the host *)

Module Run.
Section Monad.
Context {B : Type}.

Definition M (A : Type) : Type := B -> A * B * list event.

Definition ret {A : Type} (a : A) : M A := fun b => (a, b, []).

Definition bind {A C : Type} (m : M A) (f : A -> M C) : M C :=
  fun b =>
    let '(a, b1, t1) := m b in
    let '(c, b2, t2) := f a b1 in
    (c, b2, t1 ++ t2).

Definition emit (e : event) : M unit := fun b => (tt, b, [e]).

Definition value {A : Type} (r : A * B * list event) : A := fst (fst r).
Definition host {A : Type} (r : A * B * list event) : B := snd (fst r).
Definition events {A : Type} (r : A * B * list event) : list event := snd r.
End Monad.
End Run.
Import Run.

Declare Scope run_scope.
Delimit Scope run_scope with run.
Notation "x <- m ;; k" := (bind m (fun x => k))
  (at level 61, m at next level, right associativity) : run_scope.
Notation "m ;; k" := (bind m (fun _ => k))
  (at level 61, right associativity) : run_scope.
Open Scope run_scope.

Section Driver.
Context {B : Type} {H : DsiHost B}.

Definition request (r : dsi_req) : M (B := B) Z :=
  fun b => let '(v, b') := dsi_transfer b r in (v, b', [Bus r]).

Definition mipi_dsi_generic_write (buffer : list Z) : M Z :=
  request (GenericWrite buffer).
Definition mipi_dsi_dcs_exit_sleep_mode : M Z := request DcsExitSleepMode.
Definition mipi_dsi_dcs_enter_sleep_mode : M Z := request DcsEnterSleepMode.
Definition mipi_dsi_dcs_set_display_on : M Z := request DcsSetDisplayOn.
Definition mipi_dsi_dcs_set_display_off : M Z := request DcsSetDisplayOff.

Definition msleep (ms : Z) : M (B := B) unit := emit (Msleep ms).
Definition dev_info (fmt : string) (args : list log_arg) : M (B := B) unit :=
  emit (DevInfo fmt args).
Definition dev_err (fmt : string) (args : list log_arg) : M (B := B) unit :=
  emit (DevErr fmt args).

(** *** The command sequencer *)

(** The body of the [for] loop of [set_cmd_rm69080], over the entries
    still to be visited, with the current value of [ret]. *)
Fixpoint set_cmd_loop (entries : list cmd_dsi) (ret0 : Z) : M Z :=
  match entries with
  | [] => ret ret0
  | entry :: rest =>
      if negb (cmd entry =? SLEEP_CMD) then
        r <- mipi_dsi_generic_write [cmd entry; param entry] ;;
        if r <? 0 then
          dev_err "mipi_dsi_generic_write() failed\n" [] ;;
          ret r
        else set_cmd_loop rest r
      else
        dev_info "sleep: %d ms\n" [ArgD (param entry)] ;;
        msleep (param entry) ;;
        set_cmd_loop rest ret0
  end.

(** [set_cmd_rm69080(dsi, cmd_list, count)] visits [cmd_list[0..count-1]];
    its one caller passes the length of the array as [count]. *)
Definition set_cmd_rm69080 (cmd_list : list cmd_dsi) (count : nat) : M Z :=
  set_cmd_loop (firstn count cmd_list) 0.

(** *** The lifecycle callbacks

    Each takes the context and returns the C return value with the
    context as the call leaves it. *)

Definition rm69080_disable (ctx : rm69080) : M (Z * rm69080) :=
  dev_info "%s:%s\n" [ArgS DSI_DRIVER_NAME; ArgS "rm69080_disable"] ;;
  if negb (enabled ctx) then ret (0, ctx)
  else ret (0, set_enabled ctx false).

Definition rm69080_unprepare (ctx : rm69080) : M (Z * rm69080) :=
  dev_info "%s:%s\n" [ArgS DSI_DRIVER_NAME; ArgS "rm69080_unprepare"] ;;
  if negb (prepared ctx) then ret (0, ctx)
  else
    r <- mipi_dsi_dcs_set_display_off ;;
    (if negb (r =? 0)
     then dev_info "failed to set display off: %d\n" [ArgD r]
     else ret tt) ;;
    r <- mipi_dsi_dcs_enter_sleep_mode ;;
    (if negb (r =? 0)
     then dev_info "failed to enter sleep mode: %d\n" [ArgD r]
     else ret tt) ;;
    ret (0, set_prepared ctx false).

Definition rm69080_prepare (ctx : rm69080) : M (Z * rm69080) :=
  dev_info "%s:%s\n" [ArgS DSI_DRIVER_NAME; ArgS "rm69080_prepare"] ;;
  set_cmd_rm69080 rm69080_400x400_mod (COUNT_CMD rm69080_400x400_mod) ;;
  r <- mipi_dsi_dcs_exit_sleep_mode ;;
  if negb (r =? 0) then
    dev_err "mipi_dsi_dcs_exit_sleep_mode() failed: %d\n" [ArgD r] ;;
    ret (r, ctx)
  else
    msleep 40 ;;
    r <- mipi_dsi_dcs_set_display_on ;;
    if negb (r =? 0) then
      dev_err "mipi_dsi_dcs_exit_sleep_mode() failed: %d\n" [ArgD r] ;;
      ret (r, ctx)
    else
      msleep 20 ;;
      ret (0, set_prepared ctx true).

Definition rm69080_enable (ctx : rm69080) : M (Z * rm69080) :=
  dev_info "%s:%s\n" [ArgS DSI_DRIVER_NAME; ArgS "rm69080_enable"] ;;
  if enabled ctx then ret (0, ctx)
  else ret (0, set_enabled ctx true).

(** *** Mode enumeration *)

(** [drm_mode_vrefresh] and the text that [drm_mode_set_name] stores in
    [mode->name] come from drm_modes.c; the driver only passes them on, so
    they are taken as given. *)
Variable drm_mode_vrefresh : drm_display_mode -> Z.
Variable drm_mode_name : drm_display_mode -> string.

Definition drm_mode_set_name (mode : drm_display_mode) : drm_display_mode :=
  with_name mode (drm_mode_name mode).

Definition rm69080_get_modes (ctx : rm69080) (connector : drm_connector)
  : M (outcome (Z * drm_connector)) :=
  let m := nth 0 rm69080_modes drm_display_mode_zero in
  dev_info "%s:%s\n" [ArgS DSI_DRIVER_NAME; ArgS "rm69080_get_modes"] ;;
  let mode := drm_mode_duplicate (dev connector) m in
  (match mode with
   | None => dev_err "mipi_dsi_attach() failed\n" []
   | Some _ => ret tt
   end) ;;
  dev_info "add mode %ux%u@%u\n"
    [ArgD (hdisplay m); ArgD (vdisplay m); ArgD (drm_mode_vrefresh m)] ;;
  match mode with
  | None => ret (NullDeref _)
  | Some mode =>
      let mode := drm_mode_set_name mode in
      let mode := with_type mode DRM_MODE_TYPE_DRIVER in
      let connector :=
        with_display_info connector (width_mm mode) (height_mm mode) in
      let connector := drm_mode_probed_add connector mode in
      ret (Returns (1, connector))
  end.

(** *** Sequences of lifecycle calls *)

(** A call through the [rm69080_funcs] table. *)
Definition rm69080_funcs (o : panel_op) : rm69080 -> M (Z * rm69080) :=
  match o with
  | OpDisable => rm69080_disable
  | OpUnprepare => rm69080_unprepare
  | OpPrepare => rm69080_prepare
  | OpEnable => rm69080_enable
  end.

(** The panel state before the first call and after each call. *)
Fixpoint observed (ops : list panel_op) (ctx : rm69080) (b : B)
  : list rm69080 :=
  match ops with
  | [] => [ctx]
  | o :: rest =>
      let r := rm69080_funcs o ctx b in
      ctx :: observed rest (snd (value r)) (host r)
  end.

(** The last panel state of a sequence of calls. *)
Fixpoint final (ops : list panel_op) (ctx : rm69080) (b : B) : rm69080 :=
  match ops with
  | [] => ctx
  | o :: rest =>
      let r := rm69080_funcs o ctx b in
      final rest (snd (value r)) (host r)
  end.

(** A discipline of the caller: [ok o ctx] tells whether [o] may be called
    in state [ctx]; the sequence keeps it when every call is allowed in the
    state it is made in. *)
Fixpoint keeps (ok : panel_op -> rm69080 -> bool)
  (ops : list panel_op) (ctx : rm69080) (b : B) : bool :=
  match ops with
  | [] => true
  | o :: rest =>
      let r := rm69080_funcs o ctx b in
      ok o ctx && keeps ok rest (snd (value r)) (host r)
  end.

End Driver.

(** [enable] only once [prepare] has succeeded and [prepared] still stands. *)
Definition enable_after_prepare (o : panel_op) (ctx : rm69080) : bool :=
  match o with
  | OpEnable => prepared ctx
  | _ => true
  end.

(** The order of the DRM core: moreover, [unprepare] only once the panel is
    disabled. *)
Definition core_order (o : panel_op) (ctx : rm69080) : bool :=
  match o with
  | OpEnable => prepared ctx
  | OpUnprepare => negb (enabled ctx)
  | _ => true
  end.

(** [enabled => prepared]. *)
Definition enabled_implies_prepared (ctx : rm69080) : Prop :=
  enabled ctx = true -> prepared ctx = true.

(** ** Two concrete hosts *)

(** What a transfer returns when it goes through: a generic write the
    number of bytes sent, a DCS command zero. *)
Definition transfer_done (r : dsi_req) : Z :=
  match r with
  | GenericWrite payload => Z.of_nat (List.length payload)
  | _ => 0
  end.

(** A host on which every transfer goes through. *)
#[export] Instance steady_host : DsiHost unit :=
  {| dsi_transfer := fun b r => (transfer_done r, b) |}.

(** A host driven by a script: the n-th transfer returns the n-th value of
    the script, and every transfer past its end goes through. *)
#[export] Instance scripted_host : DsiHost (list (option Z)) :=
  {| dsi_transfer := fun b r =>
       match b with
       | [] => (transfer_done r, [])
       | None :: b' => (transfer_done r, b')
       | Some v :: b' => (v, b')
       end |}.

Definition EIO : Z := 5.

(** Scripts for [scripted_host]: the third transfer, the thirteenth (the
    exit-sleep-mode that follows the twelve writes of the table) or the
    fourteenth (the display-on) is answered with [-EIO]. *)
Definition third_write_refused : list (option Z) :=
  [None; None; Some (- EIO)].

Definition exit_sleep_refused : list (option Z) :=
  repeat None 12 ++ [Some (- EIO)].

Definition display_on_refused : list (option Z) :=
  repeat None 13 ++ [Some (- EIO)].

(** Both teardown commands are refused. *)
Definition teardown_refused : list (option Z) :=
  [Some (- EIO); Some (- EIO)].

(** Stand-ins for the two helpers of drm_modes.c that [rm69080_get_modes]
    is parameterised by. *)
Definition vrefresh_60 (m : drm_display_mode) : Z := 60.
Definition name_400x400 (m : drm_display_mode) : string := "400x400".

Definition empty_connector (alloc : bool) : drm_connector :=
  {| dev := {| mode_alloc_ok := alloc |};
     display_info_width_mm := 0;
     display_info_height_mm := 0;
     probed_modes := [] |}.

(** ** The sequencer as the specification words it *)

Section SequencerSpec.
Context {B : Type} {H : DsiHost B}.

(** The two-byte write of an entry. *)
Definition entry_write (e : cmd_dsi) : dsi_req :=
  GenericWrite [cmd e; param e].

(** An entry whose register is 0x00 is a sleep of [value] milliseconds,
    any other entry is the two-byte write [register, value]. *)
Definition entry_event (e : cmd_dsi) : event :=
  if cmd e =? 0x00 then Msleep (param e) else Bus (entry_write e).

(** The host once the entries have been applied one after the other. *)
Fixpoint host_after (l : list cmd_dsi) (b : B) : B :=
  match l with
  | [] => b
  | e :: l' =>
      if cmd e =? 0x00 then host_after l' b
      else host_after l' (snd (dsi_transfer b (entry_write e)))
  end.

(** Every write among the entries is answered with a value that is not
    negative. *)
Fixpoint writes_succeed (l : list cmd_dsi) (b : B) : bool :=
  match l with
  | [] => true
  | e :: l' =>
      if cmd e =? 0x00 then writes_succeed l' b
      else
        (0 <=? fst (dsi_transfer b (entry_write e)))
        && writes_succeed l' (snd (dsi_transfer b (entry_write e)))
  end.

(** [write_fails_at l k b = Some r]: started on host [b], the writes before
    index [k] succeed, entry [k] is a write, and the host answers it with
    the negative value [r]. *)
Definition write_fails_at (l : list cmd_dsi) (k : nat) (b : B) : option Z :=
  match nth_error l k with
  | Some e =>
      let r := fst (dsi_transfer (host_after (firstn k l) b) (entry_write e)) in
      if writes_succeed (firstn k l) b && negb (cmd e =? 0x00) && (r <? 0)
      then Some r
      else None
  | None => None
  end.

(** A transfer went through when the driver does not take its value for
    a failure: [ret < 0] after a generic write, [ret != 0] after a DCS
    command. *)
Definition transfer_succeeds (q : dsi_req) (v : Z) : bool :=
  match q with
  | GenericWrite _ => 0 <=? v
  | _ => v =? 0
  end.

(** The host never refuses a transfer. *)
Definition never_refuses : Prop :=
  forall (b : B) (q : dsi_req),
    transfer_succeeds q (fst (dsi_transfer b q)) = true.

End SequencerSpec.

(** The first log line of each callback. *)
Definition banner (func : string) : event :=
  DevInfo "%s:%s\n" [ArgS DSI_DRIVER_NAME; ArgS func].

Definition prepare_banner : event := banner "rm69080_prepare".

(** ** Binding the panel to its bus *)

(** Constants of the kernel headers that [rm69080_probe] uses; their values
    are not in the driver file, so they are taken as given. *)
Class KernelHeaders : Type := {
  MIPI_DSI_MODE_VIDEO : Z;
  MIPI_DSI_MODE_VIDEO_SYNC_PULSE : Z;
  MIPI_DSI_MODE_LPM : Z;
  MIPI_DSI_FMT_RGB888 : Z;
  DRM_MODE_CONNECTOR_DSI : Z;
  ENOMEM : Z
}.

(** [struct mipi_dsi_device], with the members the driver touches; [drvdata]
    is the pointer kept in [dsi->dev.driver_data], 0 for NULL. *)
Record mipi_dsi_device : Type := mk_dsi {
  mode_flags : Z;
  format : Z;
  lanes : Z;
  drvdata : Z
}.

(** The services of the DRM and device core that [rm69080_probe] and
    [rm69080_remove] call.  Pointers are addresses, 0 for NULL. *)
Inductive core_req : Type :=
| DevmKzalloc
| OfGraphGetNextEndpoint
| DrmPanelInit (panel : Z) (connector_type : Z)
| DrmPanelAdd (panel : Z)
| DrmPanelRemove (panel : Z)
| MipiDsiAttach (dsi : mipi_dsi_device)
| MipiDsiDetach (dsi : mipi_dsi_device).

(** The core answers a call with the value the driver reads (the pointer
    of [devm_kzalloc], the [int] of [drm_panel_add] and [mipi_dsi_attach];
    the value of the other calls is not read) and moves to a new state. *)
Class PanelCore (K : Type) : Type := { core_call : K -> core_req -> Z * K }.

(** [&ctx->base]: [base] is the first member of [struct rm69080]. *)
Definition panel_base (ctx : Z) : Z := ctx.

(** [mipi_dsi_get_drvdata] of drm_mipi_dsi.h reads [dsi->dev.driver_data]. *)
Definition mipi_dsi_get_drvdata (dsi : mipi_dsi_device) : Z := drvdata dsi.

Section Binding.
Context {K : Type} {core : PanelCore K} {hdrs : KernelHeaders}.

Definition call (q : core_req) : M (B := K) Z :=
  fun k => let '(v, k') := core_call k q in (v, k', []).

(** [rm69080_probe(dsi)]: the return value, the device as the call leaves
    it, and the context it allocated (address and zeroed content), if any. *)
Definition rm69080_probe (dsi : mipi_dsi_device)
  : M (Z * mipi_dsi_device * option (Z * rm69080)) :=
  dev_info "%s:%s\n" [ArgS DSI_DRIVER_NAME; ArgS "rm69080_probe"] ;;
  let dsi :=
    mk_dsi
      (Z.lor (Z.lor MIPI_DSI_MODE_VIDEO MIPI_DSI_MODE_VIDEO_SYNC_PULSE)
         MIPI_DSI_MODE_LPM)
      MIPI_DSI_FMT_RGB888 1 (drvdata dsi) in
  ctx <- call DevmKzalloc ;;
  if ctx =? 0 then
    dev_err "devm_kzalloc() failed!\n" [] ;;
    ret (- ENOMEM, dsi, None)
  else
    call OfGraphGetNextEndpoint ;;
    call (DrmPanelInit (panel_base ctx) DRM_MODE_CONNECTOR_DSI) ;;
    r <- call (DrmPanelAdd (panel_base ctx)) ;;
    if negb (r =? 0) then
      dev_err "drm_panel_add() failed!\n" [] ;;
      ret (r, dsi, Some (ctx, rm69080_zeroed))
    else
      r <- call (MipiDsiAttach dsi) ;;
      (if negb (r =? 0) then
         dev_err "mipi_dsi_attach() failed: %d\n" [ArgD r] ;;
         call (DrmPanelRemove (panel_base ctx)) ;;
         ret tt
       else ret tt) ;;
      ret (0, dsi, Some (ctx, rm69080_zeroed)).

(** [rm69080_remove(dsi)]. *)
Definition rm69080_remove (dsi : mipi_dsi_device) : M (B := K) Z :=
  let ctx := mipi_dsi_get_drvdata dsi in
  dev_info "%s:%s\n" [ArgS DSI_DRIVER_NAME; ArgS "rm69080_remove"] ;;
  call (MipiDsiDetach dsi) ;;
  call (DrmPanelRemove (panel_base ctx)) ;;
  ret 0.

(** The core once the calls have been made one after the other. *)
Definition core_after (qs : list core_req) (k : K) : K :=
  fold_left (fun k q => snd (core_call k q)) qs k.

End Binding.

(** ** Vocabulary of the further properties *)

(** What a sequence of calls makes of [enabled], reading the calls alone. *)
Definition enabled_after (ops : list panel_op) (e : bool) : bool :=
  fold_left
    (fun e o =>
       match o with
       | OpEnable => true
       | OpDisable => false
       | OpPrepare | OpUnprepare => e
       end) ops e.

(** An entry that is a sleep directive. *)
Definition is_sleep_entry (e : cmd_dsi) : bool := cmd e =? SLEEP_CMD.

(** A core that hands out the address [0x1000], or NULL when [alloc] is
    false, and answers [drm_panel_add] and [mipi_dsi_attach] with the given
    values; its state is the list of the calls made so far. *)
Definition logging_core (alloc : bool) (add attach : Z)
  : PanelCore (list core_req) :=
  {| core_call := fun k q =>
       (match q with
        | DevmKzalloc => if alloc then 0x1000 else 0
        | DrmPanelAdd _ => add
        | MipiDsiAttach _ => attach
        | _ => 0
        end, k ++ [q]) |}.

(** The header values of the kernels that have this [drm_panel_add]. *)
Definition headers_5_x : KernelHeaders :=
  {| MIPI_DSI_MODE_VIDEO := Z.shiftl 1 0;
     MIPI_DSI_MODE_VIDEO_SYNC_PULSE := Z.shiftl 1 2;
     MIPI_DSI_MODE_LPM := Z.shiftl 1 11;
     MIPI_DSI_FMT_RGB888 := 0;
     DRM_MODE_CONNECTOR_DSI := 16;
     ENOMEM := 12 |}.

(** A device as the bus hands it to [rm69080_probe]: nothing configured,
    no driver data. *)
Definition unbound_dsi : mipi_dsi_device := mk_dsi 0 0 0 0.

(** ** Properties *)

Section Facts.
Context {B : Type} {H : DsiHost B}.

Lemma hw_app (t1 t2 : list event) : hw (t1 ++ t2) = hw t1 ++ hw t2.
Proof. apply filter_app. Qed.

Lemma bind_run {A C : Type} (m : M A) (f : A -> M C) (b : B) :
  bind m f b =
  (value (f (value (m b)) (host (m b))),
   host (f (value (m b)) (host (m b))),
   events (m b) ++ events (f (value (m b)) (host (m b)))).
Proof.
  unfold bind, value, host, events.
  destruct (m b) as [[a b1] t1]; cbn.
  destruct (f a b1) as [[c b2] t2]; reflexivity.
Qed.

Lemma request_run (r : dsi_req) (b : B) :
  request r b = (fst (dsi_transfer b r), snd (dsi_transfer b r), [Bus r]).
Proof. unfold request. destruct (dsi_transfer b r); reflexivity. Qed.

(** One turn of the loop on a sleep entry. *)
Lemma set_cmd_loop_sleep (e : cmd_dsi) (l : list cmd_dsi) (r0 : Z) (b : B) :
  cmd e = SLEEP_CMD ->
  set_cmd_loop (e :: l) r0 b =
  (value (set_cmd_loop l r0 b), host (set_cmd_loop l r0 b),
   DevInfo "sleep: %d ms\n" [ArgD (param e)] :: Msleep (param e)
     :: events (set_cmd_loop l r0 b)).
Proof.
  intros He. cbn [set_cmd_loop]. rewrite He. cbn [Z.eqb SLEEP_CMD negb].
  rewrite !bind_run. reflexivity.
Qed.

(** One turn of the loop on a write that the host accepts. *)
Lemma set_cmd_loop_write_ok (e : cmd_dsi) (l : list cmd_dsi) (r0 : Z) (b : B) :
  cmd e <> SLEEP_CMD ->
  0 <= fst (dsi_transfer b (entry_write e)) ->
  let r := fst (dsi_transfer b (entry_write e)) in
  let b' := snd (dsi_transfer b (entry_write e)) in
  set_cmd_loop (e :: l) r0 b =
  (value (set_cmd_loop l r b'), host (set_cmd_loop l r b'),
   Bus (entry_write e) :: events (set_cmd_loop l r b')).
Proof.
  intros He Hr. cbn zeta. cbn [set_cmd_loop].
  apply Z.eqb_neq in He. rewrite He. cbn [negb].
  rewrite bind_run. unfold mipi_dsi_generic_write. rewrite request_run.
  unfold entry_write in *. cbn [value host events fst snd].
  apply Z.ltb_ge in Hr. rewrite Hr. reflexivity.
Qed.

(** One turn of the loop on a write that the host refuses. *)
Lemma set_cmd_loop_write_fail (e : cmd_dsi) (l : list cmd_dsi) (r0 : Z) (b : B) :
  cmd e <> SLEEP_CMD ->
  fst (dsi_transfer b (entry_write e)) < 0 ->
  set_cmd_loop (e :: l) r0 b =
  (fst (dsi_transfer b (entry_write e)),
   snd (dsi_transfer b (entry_write e)),
   [Bus (entry_write e); DevErr "mipi_dsi_generic_write() failed\n" []]).
Proof.
  intros He Hr. cbn [set_cmd_loop].
  apply Z.eqb_neq in He. rewrite He. cbn [negb].
  rewrite bind_run. unfold mipi_dsi_generic_write. rewrite request_run.
  unfold entry_write in *. cbn [value host events fst snd].
  apply Z.ltb_lt in Hr. rewrite Hr. reflexivity.
Qed.

(** The loop stops at the first write the host refuses. *)
Lemma set_cmd_loop_first_failure (l : list cmd_dsi) :
  forall (k : nat) (b : B) (r0 r : Z),
    write_fails_at l k b = Some r ->
    exists e applied,
      nth_error l k = Some e /\
      cmd e <> SLEEP_CMD /\
      r < 0 /\
      value (set_cmd_loop l r0 b) = r /\
      host (set_cmd_loop l r0 b) =
        snd (dsi_transfer (host_after (firstn k l) b) (entry_write e)) /\
      events (set_cmd_loop l r0 b) =
        applied ++ [Bus (entry_write e);
                    DevErr "mipi_dsi_generic_write() failed\n" []] /\
      hw applied = map entry_event (firstn k l).
Proof.
  induction l as [|e0 l IH]; intros k b r0 r Hk.
  - destruct k; discriminate Hk.
  - destruct k as [|k].
    + unfold write_fails_at in Hk. cbn [nth_error firstn host_after writes_succeed] in Hk.
      cbn [andb] in Hk.
      destruct (cmd e0 =? 0) eqn:Hs; [discriminate Hk|]. cbn [negb] in Hk.
      destruct (fst (dsi_transfer b (entry_write e0)) <? 0) eqn:Hneg;
        [|discriminate Hk].
      injection Hk as <-.
      apply Z.eqb_neq in Hs. apply Z.ltb_lt in Hneg.
      exists e0, []. rewrite (set_cmd_loop_write_fail e0 l r0 b Hs Hneg).
      repeat split; auto.
    + unfold write_fails_at in Hk.
      cbn [nth_error firstn host_after writes_succeed] in Hk.
      destruct (cmd e0 =? 0) eqn:Hs.
      * apply Z.eqb_eq in Hs.
        destruct (IH k b r0 r Hk) as (e & applied & Hn & Hc & Hr & Hv & Hh & Ht & Ha).
        exists e,
          (DevInfo "sleep: %d ms\n" [ArgD (param e0)] :: Msleep (param e0) :: applied).
        rewrite (set_cmd_loop_sleep e0 l r0 b Hs).
        cbn [value host events fst snd nth_error firstn host_after map].
        assert (Hs' : (cmd e0 =? 0) = true) by (apply Z.eqb_eq; exact Hs).
        rewrite Hs'.
        repeat split; auto.
        -- rewrite Ht. reflexivity.
        -- unfold hw in *. cbn [filter is_hw]. rewrite Ha. unfold entry_event. rewrite Hs'. reflexivity.
      * destruct (0 <=? fst (dsi_transfer b (entry_write e0))) eqn:Hok.
        2:{ cbn [andb] in Hk. destruct (nth_error l k); discriminate Hk. }
        cbn [andb] in Hk.
        destruct (IH k (snd (dsi_transfer b (entry_write e0)))
                    (fst (dsi_transfer b (entry_write e0))) r Hk)
          as (e & applied & Hn & Hc & Hr & Hv & Hh & Ht & Ha).
        exists e, (Bus (entry_write e0) :: applied).
        apply Z.leb_le in Hok.
        assert (Hs0 : cmd e0 <> SLEEP_CMD) by (apply Z.eqb_neq; exact Hs).
        rewrite (set_cmd_loop_write_ok e0 l r0 b Hs0 Hok).
        cbn [value host events fst snd nth_error firstn host_after map].
        rewrite Hs.
        repeat split; auto.
        -- rewrite Ht. reflexivity.
        -- unfold hw in *. cbn [filter is_hw]. rewrite Ha. unfold entry_event. rewrite Hs. reflexivity.
Qed.

(** C2. Whatever the command list and the index k of the write that the
    bus refuses (the writes before it being accepted), [set_cmd_rm69080]
    applies the first k entries and only them, each non-sentinel entry as
    the two-byte write [register, value] and each entry of register 0x00
    as a sleep of [value] milliseconds; it then attempts the write of
    entry k, visits no later entry, and returns the negative value the
    bus answered. *)
Theorem set_cmd_rm69080_stops_at_failure
  (cmd_list : list cmd_dsi) (k : nat) (b : B) (r : Z) :
  write_fails_at cmd_list k b = Some r ->
  exists e applied,
    nth_error cmd_list k = Some e /\
    r < 0 /\
    value (set_cmd_rm69080 cmd_list (COUNT_CMD cmd_list) b) = r /\
    events (set_cmd_rm69080 cmd_list (COUNT_CMD cmd_list) b) =
      applied ++ [Bus (GenericWrite [cmd e; param e]);
                  DevErr "mipi_dsi_generic_write() failed\n" []] /\
    hw applied = map entry_event (firstn k cmd_list) /\
    host (set_cmd_rm69080 cmd_list (COUNT_CMD cmd_list) b) =
      snd (dsi_transfer (host_after (firstn k cmd_list) b)
             (GenericWrite [cmd e; param e])).
Proof.
  intros Hk. unfold set_cmd_rm69080, COUNT_CMD. rewrite firstn_all.
  destruct (set_cmd_loop_first_failure cmd_list k b 0 r Hk)
    as (e & applied & Hn & _ & Hr & Hv & Hh & Ht & Ha).
  exists e, applied. unfold entry_write in *. repeat split; assumption.
Qed.

(** *** The sequencer when no write is refused *)

Lemma set_cmd_loop_all_applied (l : list cmd_dsi) :
  forall (b : B) (r0 : Z),
    writes_succeed l b = true ->
    0 <= r0 ->
    0 <= value (set_cmd_loop l r0 b) /\
    host (set_cmd_loop l r0 b) = host_after l b /\
    hw (events (set_cmd_loop l r0 b)) = map entry_event l.
Proof.
  induction l as [|e l IH]; intros b r0 Hw Hr0.
  - cbn. auto.
  - cbn [writes_succeed] in Hw. cbn [host_after map]. unfold entry_event at 1.
    destruct (cmd e =? 0) eqn:Hs.
    + apply Z.eqb_eq in Hs. rewrite (set_cmd_loop_sleep e l r0 b Hs).
      cbn [value host events fst snd].
      destruct (IH b r0 Hw Hr0) as (Hv & Hh & Ht).
      repeat split; auto. unfold hw in *. cbn [filter is_hw]. now rewrite Ht.
    + apply andb_prop in Hw. destruct Hw as [Hok Hw].
      apply Z.leb_le in Hok. apply Z.eqb_neq in Hs.
      rewrite (set_cmd_loop_write_ok e l r0 b Hs Hok).
      cbn [value host events fst snd].
      destruct (IH _ _ Hw Hok) as (Hv & Hh & Ht).
      repeat split; auto. unfold hw in *. cbn [filter is_hw]. now rewrite Ht.
Qed.

(** The sequencer sends nothing but generic writes. *)
Lemma set_cmd_loop_only_generic (l : list cmd_dsi) :
  forall (b : B) (r0 : Z) (q : dsi_req),
    In (Bus q) (events (set_cmd_loop l r0 b)) ->
    exists payload, q = GenericWrite payload.
Proof.
  induction l as [|e l IH]; intros b r0 q Hin.
  - destruct Hin.
  - destruct (Z.eq_dec (cmd e) SLEEP_CMD) as [Hs|Hs].
    + rewrite (set_cmd_loop_sleep e l r0 b Hs) in Hin.
      cbn [events snd] in Hin.
      destruct Hin as [Hd|[Hd|Hin]]; try discriminate Hd. eauto.
    + destruct (Z_lt_le_dec (fst (dsi_transfer b (entry_write e))) 0) as [Hr|Hr].
      * rewrite (set_cmd_loop_write_fail e l r0 b Hs Hr) in Hin.
        cbn [events snd] in Hin.
        destruct Hin as [Hd|[Hd|[]]]; try discriminate Hd.
        injection Hd as <-. unfold entry_write. eauto.
      * rewrite (set_cmd_loop_write_ok e l r0 b Hs Hr) in Hin.
        cbn [events snd] in Hin.
        destruct Hin as [Hd|Hin]; [|eauto].
        injection Hd as <-. unfold entry_write. eauto.
Qed.

(** *** The shape of a call of [rm69080_prepare] *)

Lemma rm69080_prepare_run (ctx : rm69080) (b : B) :
  let s := set_cmd_rm69080 rm69080_400x400_mod
             (COUNT_CMD rm69080_400x400_mod) b in
  let r1 := fst (dsi_transfer (host s) DcsExitSleepMode) in
  let b1 := snd (dsi_transfer (host s) DcsExitSleepMode) in
  let r2 := fst (dsi_transfer b1 DcsSetDisplayOn) in
  let b2 := snd (dsi_transfer b1 DcsSetDisplayOn) in
  rm69080_prepare ctx b =
  if negb (r1 =? 0) then
    ((r1, ctx), b1,
     prepare_banner :: events s ++
       [Bus DcsExitSleepMode;
        DevErr "mipi_dsi_dcs_exit_sleep_mode() failed: %d\n" [ArgD r1]])
  else if negb (r2 =? 0) then
    ((r2, ctx), b2,
     prepare_banner :: events s ++
       [Bus DcsExitSleepMode; Msleep 40; Bus DcsSetDisplayOn;
        DevErr "mipi_dsi_dcs_exit_sleep_mode() failed: %d\n" [ArgD r2]])
  else
    ((0, set_prepared ctx true), b2,
     prepare_banner :: events s ++
       [Bus DcsExitSleepMode; Msleep 40; Bus DcsSetDisplayOn; Msleep 20]).
Proof.
  cbn zeta.
  unfold rm69080_prepare, bind, mipi_dsi_dcs_exit_sleep_mode,
    mipi_dsi_dcs_set_display_on, request, dev_info, dev_err, msleep, emit,
    ret, prepare_banner.
  destruct (set_cmd_rm69080 rm69080_400x400_mod
              (COUNT_CMD rm69080_400x400_mod) b) as [[v b0] t0].
  cbn [host events fst snd].
  destruct (dsi_transfer b0 DcsExitSleepMode) as [r1 b1].
  cbn [fst snd].
  destruct (negb (r1 =? 0)); [reflexivity|].
  destruct (dsi_transfer b1 DcsSetDisplayOn) as [r2 b2].
  cbn [fst snd].
  destruct (negb (r2 =? 0)); reflexivity.
Qed.

(** C5. When the run itself goes through, that is when the host accepts
    every write of the vendor table, answers the exit-sleep-mode that
    follows with 0 and the display-on after it with 0, [rm69080_prepare]
    applies the 14 entries of the table in table order (12 two-byte writes
    and 2 sleeps of 150 ms), then sends exit-sleep-mode, sleeps 40 ms, sends
    display-on, sleeps 20 ms, returns 0 and leaves [prepared] set; for
    the zeroed context of a fresh panel the final state is
    [prepared = true, enabled = false].  Nothing is asked of the host on
    requests that this run does not send. *)
Theorem rm69080_prepare_success (ctx : rm69080) (b : B) :
  writes_succeed rm69080_400x400_mod b = true ->
  fst (dsi_transfer (host_after rm69080_400x400_mod b) DcsExitSleepMode) = 0 ->
  fst (dsi_transfer
         (snd (dsi_transfer (host_after rm69080_400x400_mod b) DcsExitSleepMode))
         DcsSetDisplayOn) = 0 ->
  value (rm69080_prepare ctx b) = (0, set_prepared ctx true) /\
  prepared (snd (value (rm69080_prepare ctx b))) = true /\
  hw (events (rm69080_prepare ctx b)) =
    [ Bus (GenericWrite [0xFE; 0x05]);
      Bus (GenericWrite [0x05; 0x00]);
      Bus (GenericWrite [0xFE; 0x07]);
      Bus (GenericWrite [0x07; 0x4F]);
      Bus (GenericWrite [0xFE; 0x0A]);
      Bus (GenericWrite [0x1C; 0x1B]);
      Bus (GenericWrite [0xFE; 0x00]);
      Bus (GenericWrite [0x35; 0x00]);
      Bus (GenericWrite [0x51; 0xF0]);
      Bus (GenericWrite [0x38; 0x00]);
      Bus (GenericWrite [0x11; 0x00]);
      Msleep 150;
      Msleep 150;
      Bus (GenericWrite [0x29; 0x00]);
      Bus DcsExitSleepMode;
      Msleep 40;
      Bus DcsSetDisplayOn;
      Msleep 20 ] /\
  host (rm69080_prepare ctx b) =
    snd (dsi_transfer
           (snd (dsi_transfer (host_after rm69080_400x400_mod b)
                   DcsExitSleepMode))
           DcsSetDisplayOn) /\
  COUNT_CMD rm69080_400x400_mod = 14%nat /\
  set_prepared rm69080_zeroed true = {| prepared := true; enabled := false |}.
Proof.
  intros Hw H1 H2.
  pose proof (rm69080_prepare_run ctx b) as Hrun. cbn zeta in Hrun.
  set (s := set_cmd_rm69080 rm69080_400x400_mod
              (COUNT_CMD rm69080_400x400_mod) b) in *.
  assert (Hs : host s = host_after rm69080_400x400_mod b /\
               hw (events s) = map entry_event rm69080_400x400_mod).
  { subst s. unfold set_cmd_rm69080, COUNT_CMD. rewrite firstn_all.
    destruct (set_cmd_loop_all_applied rm69080_400x400_mod b 0 Hw
                (Z.le_refl 0)) as (_ & Hh & Ht).
    split; assumption. }
  destruct Hs as [Hh Ht].
  rewrite Hh in Hrun. rewrite H1, H2 in Hrun. cbn [Z.eqb negb] in Hrun.
  rewrite Hrun. cbn [value host events fst snd set_prepared prepared].
  repeat split.
  change (prepare_banner :: events s ++
            [Bus DcsExitSleepMode; Msleep 40; Bus DcsSetDisplayOn; Msleep 20])
    with ([prepare_banner] ++ events s ++
            [Bus DcsExitSleepMode; Msleep 40; Bus DcsSetDisplayOn; Msleep 20]).
  rewrite !hw_app, Ht. reflexivity.
Qed.

(** C6. Let [prepare] be called on an unprepared panel.  If the host
    answers exit-sleep-mode with a non-zero value, [prepare] returns that
    value, sends no display-on (its last bus request is exit-sleep-mode)
    and [prepared] is still false.  If exit-sleep-mode is answered with 0
    and display-on with a non-zero value, [prepare] returns that value and
    [prepared] is still false. *)
Theorem rm69080_prepare_mandatory_step_fails (ctx : rm69080) (b : B) :
  prepared ctx = false ->
  let s := set_cmd_rm69080 rm69080_400x400_mod
             (COUNT_CMD rm69080_400x400_mod) b in
  let r1 := fst (dsi_transfer (host s) DcsExitSleepMode) in
  let b1 := snd (dsi_transfer (host s) DcsExitSleepMode) in
  let r2 := fst (dsi_transfer b1 DcsSetDisplayOn) in
  let p := rm69080_prepare ctx b in
  (r1 <> 0 ->
     fst (value p) = r1 /\
     snd (value p) = ctx /\
     prepared (snd (value p)) = false /\
     hw (events p) = hw (events s) ++ [Bus DcsExitSleepMode] /\
     ~ In (Bus DcsSetDisplayOn) (events p)) /\
  (r1 = 0 -> r2 <> 0 ->
     fst (value p) = r2 /\
     snd (value p) = ctx /\
     prepared (snd (value p)) = false /\
     hw (events p) =
       hw (events s) ++ [Bus DcsExitSleepMode; Msleep 40; Bus DcsSetDisplayOn]).
Proof.
  intros Hctx. cbn zeta.
  pose proof (rm69080_prepare_run ctx b) as Hrun. cbn zeta in Hrun.
  set (s := set_cmd_rm69080 rm69080_400x400_mod
              (COUNT_CMD rm69080_400x400_mod) b) in *.
  split.
  - intros Hr1. apply Z.eqb_neq in Hr1. rewrite Hr1 in Hrun.
    cbn [negb] in Hrun. rewrite Hrun. cbn [value events fst snd].
    repeat split; auto.
    + change (prepare_banner :: events s ++ ?l)
        with ([prepare_banner] ++ events s ++ l).
      rewrite !hw_app. reflexivity.
    + intros [Hd|Hin]; [discriminate Hd|].
      apply in_app_or in Hin. destruct Hin as [Hin|[Hd|[Hd|[]]]];
        try discriminate Hd.
      apply set_cmd_loop_only_generic in Hin.
      destruct Hin as [payload Hq]. discriminate Hq.
  - intros Hr1 Hr2. rewrite Hr1 in Hrun. apply Z.eqb_neq in Hr2.
    rewrite Hr2 in Hrun. cbn [Z.eqb negb] in Hrun. rewrite Hrun.
    cbn [value events fst snd].
    repeat split; auto.
    change (prepare_banner :: events s ++ ?l)
      with ([prepare_banner] ++ events s ++ l).
    rewrite !hw_app. reflexivity.
Qed.

(** *** Teardown *)

Lemma rm69080_unprepare_run (ctx : rm69080) (b : B) :
  let r1 := fst (dsi_transfer b DcsSetDisplayOff) in
  let b1 := snd (dsi_transfer b DcsSetDisplayOff) in
  let r2 := fst (dsi_transfer b1 DcsEnterSleepMode) in
  let b2 := snd (dsi_transfer b1 DcsEnterSleepMode) in
  rm69080_unprepare ctx b =
  if negb (prepared ctx) then ((0, ctx), b, [banner "rm69080_unprepare"])
  else
    ((0, set_prepared ctx false), b2,
     [banner "rm69080_unprepare"; Bus DcsSetDisplayOff]
     ++ (if negb (r1 =? 0)
         then [DevInfo "failed to set display off: %d\n" [ArgD r1]]
         else [])
     ++ [Bus DcsEnterSleepMode]
     ++ (if negb (r2 =? 0)
         then [DevInfo "failed to enter sleep mode: %d\n" [ArgD r2]]
         else [])).
Proof.
  cbn zeta.
  unfold rm69080_unprepare, bind, mipi_dsi_dcs_set_display_off,
    mipi_dsi_dcs_enter_sleep_mode, request, dev_info, emit, ret, banner.
  destruct (negb (prepared ctx)); [reflexivity|].
  destruct (dsi_transfer b DcsSetDisplayOff) as [r1 b1]. cbn [fst snd].
  destruct (negb (r1 =? 0));
    destruct (dsi_transfer b1 DcsEnterSleepMode) as [r2 b2]; cbn [fst snd];
    destruct (negb (r2 =? 0)); reflexivity.
Qed.

(** C7. [rm69080_unprepare] always returns 0 and always leaves
    [prepared] false.  On a prepared panel it sends display-off and then
    enter-sleep-mode whatever the host answers; a non-zero answer only
    adds a log line.  On an unprepared panel it does nothing but print its
    banner: the context and the host are as before. *)
Theorem rm69080_unprepare_best_effort (ctx : rm69080) (b : B) :
  let r1 := fst (dsi_transfer b DcsSetDisplayOff) in
  let b1 := snd (dsi_transfer b DcsSetDisplayOff) in
  let r2 := fst (dsi_transfer b1 DcsEnterSleepMode) in
  let b2 := snd (dsi_transfer b1 DcsEnterSleepMode) in
  let u := rm69080_unprepare ctx b in
  fst (value u) = 0 /\
  prepared (snd (value u)) = false /\
  (prepared ctx = true ->
     hw (events u) = [Bus DcsSetDisplayOff; Bus DcsEnterSleepMode] /\
     host u = b2 /\
     events u =
       [banner "rm69080_unprepare"; Bus DcsSetDisplayOff]
       ++ (if negb (r1 =? 0)
           then [DevInfo "failed to set display off: %d\n" [ArgD r1]]
           else [])
       ++ [Bus DcsEnterSleepMode]
       ++ (if negb (r2 =? 0)
           then [DevInfo "failed to enter sleep mode: %d\n" [ArgD r2]]
           else [])) /\
  (prepared ctx = false ->
     u = ((0, ctx), b, [banner "rm69080_unprepare"])).
Proof.
  cbn zeta. pose proof (rm69080_unprepare_run ctx b) as Hrun.
  cbn zeta in Hrun. rewrite Hrun. clear Hrun.
  destruct (prepared ctx) eqn:Hp; cbn [negb value host events fst snd].
  - repeat split; try discriminate.
    destruct (negb (fst (dsi_transfer b DcsSetDisplayOff) =? 0));
      destruct (negb (fst (dsi_transfer
                  (snd (dsi_transfer b DcsSetDisplayOff))
                  DcsEnterSleepMode) =? 0)); reflexivity.
  - repeat split; try discriminate; assumption.
Qed.

(** *** Each callback and its flag *)

Lemma rm69080_enable_run (ctx : rm69080) (b : B) :
  rm69080_enable ctx b = ((0, set_enabled ctx true), b, [banner "rm69080_enable"]).
Proof.
  unfold rm69080_enable, bind, dev_info, emit, ret, banner.
  destruct ctx as [p [|]]; reflexivity.
Qed.

Lemma rm69080_disable_run (ctx : rm69080) (b : B) :
  rm69080_disable ctx b =
  ((0, set_enabled ctx false), b, [banner "rm69080_disable"]).
Proof.
  unfold rm69080_disable, bind, dev_info, emit, ret, banner.
  destruct ctx as [p [|]]; reflexivity.
Qed.

Lemma rm69080_prepare_ctx (ctx : rm69080) (b : B) :
  snd (value (rm69080_prepare ctx b)) = ctx \/
  snd (value (rm69080_prepare ctx b)) = set_prepared ctx true.
Proof.
  pose proof (rm69080_prepare_run ctx b) as Hrun. cbn zeta in Hrun.
  rewrite Hrun.
  repeat match goal with |- context [if ?c then _ else _] => destruct c end;
    cbn; auto.
Qed.

Lemma rm69080_unprepare_ctx (ctx : rm69080) (b : B) :
  snd (value (rm69080_unprepare ctx b)) = set_prepared ctx false.
Proof.
  pose proof (rm69080_unprepare_run ctx b) as Hrun. cbn zeta in Hrun.
  rewrite Hrun. destruct ctx as [[|] e]; reflexivity.
Qed.

(** C10. [enable] and [disable] return 0 in every state (also when
    [prepared] is false), write [enabled] and nothing else, leave the host
    untouched and cause no bus request and no sleep; [prepare] and
    [unprepare] leave [enabled] as it was. *)
Theorem lifecycle_touches_own_flag (ctx : rm69080) (b : B) :
  (value (rm69080_enable ctx b) =
     (0, {| prepared := prepared ctx; enabled := true |}) /\
   host (rm69080_enable ctx b) = b /\
   hw (events (rm69080_enable ctx b)) = []) /\
  (value (rm69080_disable ctx b) =
     (0, {| prepared := prepared ctx; enabled := false |}) /\
   host (rm69080_disable ctx b) = b /\
   hw (events (rm69080_disable ctx b)) = []) /\
  enabled (snd (value (rm69080_prepare ctx b))) = enabled ctx /\
  enabled (snd (value (rm69080_unprepare ctx b))) = enabled ctx.
Proof.
  rewrite rm69080_enable_run, rm69080_disable_run, rm69080_unprepare_ctx.
  repeat split.
  destruct (rm69080_prepare_ctx ctx b) as [-> | ->]; reflexivity.
Qed.

(** *** The invariant along a sequence of calls *)

Lemma call_keeps_invariant (o : panel_op) (ctx : rm69080) (b : B) :
  enabled_implies_prepared ctx ->
  core_order o ctx = true ->
  enabled_implies_prepared (snd (value (rm69080_funcs o ctx b))).
Proof.
  unfold enabled_implies_prepared. intros Hinv Hok.
  destruct o; cbn [rm69080_funcs core_order] in *.
  - rewrite rm69080_disable_run. cbn. discriminate.
  - rewrite rm69080_unprepare_ctx. cbn. intros He.
    rewrite He in Hok. discriminate Hok.
  - destruct (rm69080_prepare_ctx ctx b) as [-> | ->]; cbn; auto.
  - rewrite rm69080_enable_run. cbn. auto.
Qed.

(** C1, as the code has it.  From a state where [enabled => prepared]
    holds, along every sequence of prepare/enable/disable/unprepare calls
    in which [enable] is called only while [prepared] is true and
    [unprepare] only while [enabled] is false, [enabled => prepared] holds
    before the first call and after every call, whatever the host
    answers. *)
Theorem invariant_under_core_order
  (ops : list panel_op) (ctx : rm69080) (b : B) :
  enabled_implies_prepared ctx ->
  keeps core_order ops ctx b = true ->
  Forall enabled_implies_prepared (observed ops ctx b).
Proof.
  revert ctx b. induction ops as [|o ops IH]; intros ctx b Hinv Hk.
  - constructor; [exact Hinv|constructor].
  - cbn [keeps] in Hk. apply andb_prop in Hk. destruct Hk as [Ho Hk].
    cbn [observed]. constructor; [exact Hinv|].
    apply IH; [|exact Hk].
    apply call_keeps_invariant; assumption.
Qed.

(** *** Mode enumeration *)

Variable drm_mode_vrefresh : drm_display_mode -> Z.
Variable drm_mode_name : drm_display_mode -> string.

Lemma rm69080_get_modes_run (ctx : rm69080) (connector : drm_connector) (b : B) :
  let m := nth 0 rm69080_modes drm_display_mode_zero in
  let add :=
    DevInfo "add mode %ux%u@%u\n"
      [ArgD (hdisplay m); ArgD (vdisplay m); ArgD (drm_mode_vrefresh m)] in
  rm69080_get_modes drm_mode_vrefresh drm_mode_name ctx connector b =
  match drm_mode_duplicate (dev connector) m with
  | None =>
      (NullDeref _, b,
       [banner "rm69080_get_modes"; DevErr "mipi_dsi_attach() failed\n" []; add])
  | Some mode =>
      (Returns
         (1, drm_mode_probed_add
               (with_display_info connector (width_mm mode) (height_mm mode))
               (with_type (drm_mode_set_name drm_mode_name mode)
                  DRM_MODE_TYPE_DRIVER)),
       b, [banner "rm69080_get_modes"; add])
  end.
Proof.
  cbn zeta. unfold rm69080_get_modes, bind, dev_info, dev_err, emit, ret, banner.
  destruct (drm_mode_duplicate (dev connector)
              (nth 0 rm69080_modes drm_display_mode_zero)); reflexivity.
Qed.

(** C8. [rm69080_get_modes] fails to return only if [drm_mode_duplicate]
    gave NULL; whenever the duplication gives a mode, the call adds that
    one mode (named, typed DRIVER) to the connector's probed modes and
    returns 1. *)
Theorem rm69080_get_modes_fails_only_on_alloc
  (ctx : rm69080) (connector : drm_connector) (b : B) :
  let m := nth 0 rm69080_modes drm_display_mode_zero in
  let g := rm69080_get_modes drm_mode_vrefresh drm_mode_name ctx connector b in
  ((forall x, value g <> Returns x) ->
     drm_mode_duplicate (dev connector) m = None) /\
  (forall mode,
     drm_mode_duplicate (dev connector) m = Some mode ->
     mode = m /\
     exists connector',
       value g = Returns (1, connector') /\
       probed_modes connector' =
         probed_modes connector
         ++ [with_type (drm_mode_set_name drm_mode_name mode)
               DRM_MODE_TYPE_DRIVER]).
Proof.
  cbn zeta. rewrite rm69080_get_modes_run. cbn zeta.
  split.
  - destruct (drm_mode_duplicate (dev connector)
                (nth 0 rm69080_modes drm_display_mode_zero)) as [mode|];
      [|reflexivity].
    intros Hfail. exfalso. eapply Hfail. reflexivity.
  - intros mode Hdup. rewrite Hdup. split.
    + unfold drm_mode_duplicate in Hdup.
      destruct (mode_alloc_ok (dev connector)); congruence.
    + eexists. split; reflexivity.
Qed.

(** C9. The table [rm69080_modes] holds one mode, of 400x400 active
    pixels, with htotal = 430 = 400 + 10 + 10 + 10 and vtotal = 430, each
    total being the active size plus the three blanking intervals of 10.
    Every return of [rm69080_get_modes] is the count 1 with exactly one
    mode added to the connector, of these dimensions; and the call does
    return whenever the mode object can be allocated. *)
Theorem rm69080_get_modes_single_400x400
  (ctx : rm69080) (connector : drm_connector) (b : B) :
  let g := rm69080_get_modes drm_mode_vrefresh drm_mode_name ctx connector b in
  let geometry (mode : drm_display_mode) :=
    hdisplay mode = 400 /\ vdisplay mode = 400 /\
    hsync_start mode = hdisplay mode + 10 /\
    hsync_end mode = hsync_start mode + 10 /\
    htotal mode = hsync_end mode + 10 /\
    htotal mode = 430 /\ htotal mode = 400 + 10 + 10 + 10 /\
    vsync_start mode = vdisplay mode + 10 /\
    vsync_end mode = vsync_start mode + 10 /\
    vtotal mode = vsync_end mode + 10 /\
    vtotal mode = 430 /\ vtotal mode = 400 + 10 + 10 + 10 in
  (exists m, rm69080_modes = [m] /\ geometry m) /\
  (forall n connector',
     value g = Returns (n, connector') ->
     n = 1 /\
     exists mode,
       probed_modes connector' = probed_modes connector ++ [mode] /\
       geometry mode) /\
  (mode_alloc_ok (dev connector) = true -> exists x, value g = Returns x).
Proof.
  cbn zeta. rewrite rm69080_get_modes_run. cbn zeta.
  unfold drm_mode_duplicate. split; [|split].
  - eexists. split; [reflexivity|]. cbn. repeat split.
  - intros n connector'.
    destruct (mode_alloc_ok (dev connector)); cbn [value fst];
      [|discriminate].
    intros Hret. injection Hret as <- <-. split; [reflexivity|].
    eexists. split; [reflexivity|]. cbn. repeat split.
  - intros ->. eexists. reflexivity.
Qed.

End Facts.

(** ** The driver on concrete hosts *)

(** A write followed by a sleep entry: the sequencer returns what the last
    write returned, here the two bytes sent. *)
Example set_cmd_rm69080_write_then_sleep :
  set_cmd_rm69080 (H := steady_host) [mk_cmd 0x11 0x00; mk_cmd SLEEP_CMD 5] 2 tt =
  (2, tt,
   [Bus (GenericWrite [0x11; 0x00]);
    DevInfo "sleep: %d ms\n" [ArgD 5];
    Msleep 5]).
Proof. reflexivity. Qed.

(** A [count] shorter than the list leaves the tail unvisited. *)
Example set_cmd_rm69080_count :
  events (set_cmd_rm69080 (H := steady_host)
            [mk_cmd 0x11 0x00; mk_cmd 0x29 0x00] 1 tt) =
  [Bus (GenericWrite [0x11; 0x00])].
Proof. reflexivity. Qed.

(** C3. On the host that refuses the third generic write and accepts
    everything else, the sequencer stops there and returns [-EIO], yet
    [rm69080_prepare], which drops that return value, goes on with
    exit-sleep-mode and display-on, returns 0 and sets [prepared]. *)
Theorem rm69080_prepare_drops_sequencer_failure :
  value (set_cmd_rm69080 (H := scripted_host) rm69080_400x400_mod
           (COUNT_CMD rm69080_400x400_mod) third_write_refused) = - EIO /\
  hw (events (set_cmd_rm69080 (H := scripted_host) rm69080_400x400_mod
                (COUNT_CMD rm69080_400x400_mod) third_write_refused)) =
    [ Bus (GenericWrite [0xFE; 0x05]);
      Bus (GenericWrite [0x05; 0x00]);
      Bus (GenericWrite [0xFE; 0x07]) ] /\
  value (rm69080_prepare (H := scripted_host) rm69080_zeroed third_write_refused) =
    (0, {| prepared := true; enabled := false |}) /\
  hw (events (rm69080_prepare (H := scripted_host) rm69080_zeroed
                third_write_refused)) =
    [ Bus (GenericWrite [0xFE; 0x05]);
      Bus (GenericWrite [0x05; 0x00]);
      Bus (GenericWrite [0xFE; 0x07]);
      Bus DcsExitSleepMode;
      Msleep 40;
      Bus DcsSetDisplayOn;
      Msleep 20 ].
Proof. vm_compute. repeat split. Qed.

(** C4. A second [rm69080_prepare], on the panel the first one left
    prepared, is not a no-op: it returns 0 with the state unchanged, but it
    sends the twelve writes of the table and the two DCS commands again and
    sleeps four times. *)
Theorem rm69080_prepare_twice_rewrites :
  let first := rm69080_prepare (H := steady_host) rm69080_zeroed tt in
  let second := rm69080_prepare (H := steady_host) (snd (value first)) (host first) in
  snd (value first) = {| prepared := true; enabled := false |} /\
  value second = (0, {| prepared := true; enabled := false |}) /\
  bus_reqs (events second) =
    [ GenericWrite [0xFE; 0x05]; GenericWrite [0x05; 0x00];
      GenericWrite [0xFE; 0x07]; GenericWrite [0x07; 0x4F];
      GenericWrite [0xFE; 0x0A]; GenericWrite [0x1C; 0x1B];
      GenericWrite [0xFE; 0x00]; GenericWrite [0x35; 0x00];
      GenericWrite [0x51; 0xF0]; GenericWrite [0x38; 0x00];
      GenericWrite [0x11; 0x00]; GenericWrite [0x29; 0x00];
      DcsExitSleepMode; DcsSetDisplayOn ] /\
  sleeps (events second) = [150; 150; 40; 20].
Proof. vm_compute. repeat split. Qed.

(** C1, as stated, fails: prepare (returning 0), enable, unprepare is a
    sequence in which enable comes after a successful prepare, and it ends
    with [enabled = true] and [prepared = false]. *)
Lemma prepare_enable_unprepare_breaks_invariant :
  enabled_implies_prepared rm69080_zeroed /\
  fst (value (rm69080_prepare (H := steady_host) rm69080_zeroed tt)) = 0 /\
  keeps (H := steady_host) enable_after_prepare
    [OpPrepare; OpEnable; OpUnprepare] rm69080_zeroed tt = true /\
  final (H := steady_host) [OpPrepare; OpEnable; OpUnprepare] rm69080_zeroed tt =
    {| prepared := false; enabled := true |} /\
  ~ Forall enabled_implies_prepared
      (observed (H := steady_host) [OpPrepare; OpEnable; OpUnprepare]
         rm69080_zeroed tt).
Proof.
  split; [discriminate|].
  split; [reflexivity|].
  split; [reflexivity|].
  split; [reflexivity|].
  intros Hall.
  assert (Hlast : enabled_implies_prepared {| prepared := false; enabled := true |}).
  { rewrite Forall_forall in Hall. apply Hall. vm_compute. auto. }
  specialize (Hlast eq_refl). discriminate Hlast.
Qed.

(** ** The theorems at concrete inputs *)

(** The full cycle prepare, enable, disable, unprepare on the steady host. *)
Lemma invariant_under_core_order_witness :
  enabled_implies_prepared rm69080_zeroed /\
  keeps (H := steady_host) core_order
    [OpPrepare; OpEnable; OpDisable; OpUnprepare] rm69080_zeroed tt = true /\
  Forall enabled_implies_prepared
    (observed (H := steady_host)
       [OpPrepare; OpEnable; OpDisable; OpUnprepare] rm69080_zeroed tt).
Proof.
  assert (H0 : enabled_implies_prepared rm69080_zeroed) by discriminate.
  split; [exact H0|]. split; [reflexivity|].
  apply (invariant_under_core_order (H := steady_host)
           [OpPrepare; OpEnable; OpDisable; OpUnprepare] rm69080_zeroed tt H0).
  reflexivity.
Defined.

(** The vendor table on the host that refuses its third write. *)
Lemma set_cmd_rm69080_stops_at_failure_witness :
  write_fails_at (H := scripted_host) rm69080_400x400_mod 2
    third_write_refused = Some (- EIO) /\
  exists e applied,
    nth_error rm69080_400x400_mod 2 = Some e /\
    - EIO < 0 /\
    value (set_cmd_rm69080 (H := scripted_host) rm69080_400x400_mod
             (COUNT_CMD rm69080_400x400_mod) third_write_refused) = - EIO /\
    events (set_cmd_rm69080 (H := scripted_host) rm69080_400x400_mod
              (COUNT_CMD rm69080_400x400_mod) third_write_refused) =
      applied ++ [Bus (GenericWrite [cmd e; param e]);
                  DevErr "mipi_dsi_generic_write() failed\n" []] /\
    hw applied = map entry_event (firstn 2 rm69080_400x400_mod) /\
    host (set_cmd_rm69080 (H := scripted_host) rm69080_400x400_mod
            (COUNT_CMD rm69080_400x400_mod) third_write_refused) =
      snd (dsi_transfer
             (host_after (H := scripted_host)
                (firstn 2 rm69080_400x400_mod) third_write_refused)
             (GenericWrite [cmd e; param e])).
Proof.
  split; [reflexivity|].
  apply (set_cmd_rm69080_stops_at_failure (H := scripted_host)
           rm69080_400x400_mod 2 third_write_refused (- EIO)).
  reflexivity.
Defined.

Lemma steady_host_never_refuses : never_refuses (H := steady_host).
Proof.
  intros b q. destruct q; cbn; try reflexivity.
  apply Z.leb_le. lia.
Defined.

(** A fresh panel on a host that accepts the fourteen transfers of the run
    and would refuse the next one. *)
Lemma rm69080_prepare_success_witness :
  writes_succeed (H := scripted_host) rm69080_400x400_mod
    (repeat None 14 ++ [Some (- EIO)]) = true /\
  value (rm69080_prepare (H := scripted_host) rm69080_zeroed
           (repeat None 14 ++ [Some (- EIO)])) =
    (0, {| prepared := true; enabled := false |}) /\
  host (rm69080_prepare (H := scripted_host) rm69080_zeroed
          (repeat None 14 ++ [Some (- EIO)])) = [Some (- EIO)].
Proof.
  split; [reflexivity|].
  destruct (rm69080_prepare_success (H := scripted_host) rm69080_zeroed
              (repeat None 14 ++ [Some (- EIO)]) eq_refl eq_refl eq_refl)
    as (Hv & _ & _ & Hh & _).
  split; [exact Hv|exact Hh].
Defined.

(** A fresh panel on the hosts that refuse exit-sleep-mode and display-on. *)
Lemma rm69080_prepare_mandatory_step_fails_witness :
  prepared rm69080_zeroed = false /\
  (fst (value (rm69080_prepare (H := scripted_host) rm69080_zeroed
                 exit_sleep_refused)) = - EIO /\
   prepared (snd (value (rm69080_prepare (H := scripted_host) rm69080_zeroed
                           exit_sleep_refused))) = false) /\
  (fst (value (rm69080_prepare (H := scripted_host) rm69080_zeroed
                 display_on_refused)) = - EIO /\
   prepared (snd (value (rm69080_prepare (H := scripted_host) rm69080_zeroed
                           display_on_refused))) = false).
Proof.
  split; [reflexivity|]. split.
  - destruct (rm69080_prepare_mandatory_step_fails (H := scripted_host)
                rm69080_zeroed exit_sleep_refused eq_refl) as [Hexit _].
    assert (Hr : fst (dsi_transfer (DsiHost := scripted_host)
                        (host (set_cmd_rm69080 (H := scripted_host)
                                 rm69080_400x400_mod
                                 (COUNT_CMD rm69080_400x400_mod)
                                 exit_sleep_refused))
                        DcsExitSleepMode) <> 0)
      by (vm_compute; discriminate).
    destruct (Hexit Hr) as (Hv & _ & Hp & _).
    split; [exact Hv|exact Hp].
  - destruct (rm69080_prepare_mandatory_step_fails (H := scripted_host)
                rm69080_zeroed display_on_refused eq_refl) as [_ Hon].
    assert (Hr1 : fst (dsi_transfer (DsiHost := scripted_host)
                         (host (set_cmd_rm69080 (H := scripted_host)
                                  rm69080_400x400_mod
                                  (COUNT_CMD rm69080_400x400_mod)
                                  display_on_refused))
                         DcsExitSleepMode) = 0)
      by (vm_compute; reflexivity).
    assert (Hr2 : fst (dsi_transfer (DsiHost := scripted_host)
                         (snd (dsi_transfer (DsiHost := scripted_host)
                                 (host (set_cmd_rm69080 (H := scripted_host)
                                          rm69080_400x400_mod
                                          (COUNT_CMD rm69080_400x400_mod)
                                          display_on_refused))
                                 DcsExitSleepMode))
                         DcsSetDisplayOn) <> 0)
      by (vm_compute; discriminate).
    destruct (Hon Hr1 Hr2) as (Hv & _ & Hp & _).
    split; [exact Hv|exact Hp].
Defined.

(** A prepared panel on the host that refuses both teardown commands, and
    an unprepared panel. *)
Lemma rm69080_unprepare_best_effort_witness :
  (prepared {| prepared := true; enabled := false |} = true /\
   hw (events (rm69080_unprepare (H := scripted_host)
                 {| prepared := true; enabled := false |} teardown_refused)) =
     [Bus DcsSetDisplayOff; Bus DcsEnterSleepMode]) /\
  (prepared rm69080_zeroed = false /\
   rm69080_unprepare (H := scripted_host) rm69080_zeroed teardown_refused =
     ((0, rm69080_zeroed), teardown_refused, [banner "rm69080_unprepare"])).
Proof.
  split.
  - split; [reflexivity|].
    destruct (rm69080_unprepare_best_effort (H := scripted_host)
                {| prepared := true; enabled := false |} teardown_refused)
      as (_ & _ & Hprep & _).
    exact (proj1 (Hprep eq_refl)).
  - split; [reflexivity|].
    destruct (rm69080_unprepare_best_effort (H := scripted_host)
                rm69080_zeroed teardown_refused)
      as (_ & _ & _ & Hunprep).
    exact (Hunprep eq_refl).
Defined.

(** A connector whose device can allocate the mode. *)
Lemma rm69080_get_modes_fails_only_on_alloc_witness :
  drm_mode_duplicate (dev (empty_connector true))
    (nth 0 rm69080_modes drm_display_mode_zero) =
    Some (nth 0 rm69080_modes drm_display_mode_zero) /\
  exists connector',
    value (rm69080_get_modes (B := unit) vrefresh_60 name_400x400
             rm69080_zeroed (empty_connector true) tt) =
      Returns (1, connector') /\
    probed_modes connector' =
      probed_modes (empty_connector true)
      ++ [with_type
            (drm_mode_set_name name_400x400
               (nth 0 rm69080_modes drm_display_mode_zero))
            DRM_MODE_TYPE_DRIVER].
Proof.
  split; [reflexivity|].
  destruct (rm69080_get_modes_fails_only_on_alloc (B := unit)
              vrefresh_60 name_400x400 rm69080_zeroed (empty_connector true) tt)
    as [_ Hsome].
  exact (proj2 (Hsome _ eq_refl)).
Defined.

Lemma rm69080_get_modes_single_400x400_witness :
  mode_alloc_ok (dev (empty_connector true)) = true /\
  exists x,
    value (rm69080_get_modes (B := unit) vrefresh_60 name_400x400
             rm69080_zeroed (empty_connector true) tt) = Returns x.
Proof.
  split; [reflexivity|].
  destruct (rm69080_get_modes_single_400x400 (B := unit)
              vrefresh_60 name_400x400 rm69080_zeroed (empty_connector true) tt)
    as (_ & _ & Hret).
  exact (Hret eq_refl).
Defined.

(** ** Further properties of the sequencer *)

Section SequencerFacts.
Context {B : Type} {H : DsiHost B}.

(** The three ways one turn of the loop can go. *)
Lemma entry_cases (e : cmd_dsi) (b : B) :
  cmd e = SLEEP_CMD \/
  (cmd e <> SLEEP_CMD /\ 0 <= fst (dsi_transfer b (entry_write e))) \/
  (cmd e <> SLEEP_CMD /\ fst (dsi_transfer b (entry_write e)) < 0).
Proof.
  destruct (Z.eq_dec (cmd e) SLEEP_CMD) as [Hs|Hs]; [now left|right].
  destruct (Z_lt_le_dec (fst (dsi_transfer b (entry_write e))) 0);
    [right|left]; split; assumption.
Qed.

Lemma write_fails_at_sleep (e : cmd_dsi) (l : list cmd_dsi) (k : nat) (b : B) :
  cmd e = SLEEP_CMD ->
  write_fails_at (e :: l) (S k) b = write_fails_at l k b.
Proof.
  intros Hs. unfold write_fails_at.
  cbn [nth_error firstn host_after writes_succeed].
  unfold SLEEP_CMD in Hs. rewrite Hs. reflexivity.
Qed.

Lemma write_fails_at_write_ok (e : cmd_dsi) (l : list cmd_dsi) (k : nat) (b : B) :
  cmd e <> SLEEP_CMD ->
  0 <= fst (dsi_transfer b (entry_write e)) ->
  write_fails_at (e :: l) (S k) b =
  write_fails_at l k (snd (dsi_transfer b (entry_write e))).
Proof.
  intros Hs Hok. unfold write_fails_at.
  cbn [nth_error firstn host_after writes_succeed].
  apply Z.eqb_neq in Hs. unfold SLEEP_CMD in Hs. rewrite Hs.
  apply Z.leb_le in Hok. rewrite Hok. reflexivity.
Qed.

Lemma write_fails_at_head (e : cmd_dsi) (l : list cmd_dsi) (b : B) :
  cmd e <> SLEEP_CMD ->
  fst (dsi_transfer b (entry_write e)) < 0 ->
  write_fails_at (e :: l) 0 b = Some (fst (dsi_transfer b (entry_write e))).
Proof.
  intros Hs Hr. unfold write_fails_at.
  cbn [nth_error firstn host_after writes_succeed andb].
  apply Z.eqb_neq in Hs. unfold SLEEP_CMD in Hs. rewrite Hs.
  apply Z.ltb_lt in Hr. rewrite Hr. reflexivity.
Qed.

(** A refused write is reported by a negative return value, and only so. *)
Lemma set_cmd_loop_negative (l : list cmd_dsi) :
  forall (b : B) (r0 : Z),
    0 <= r0 ->
    value (set_cmd_loop l r0 b) < 0 ->
    exists k r, write_fails_at l k b = Some r.
Proof.
  induction l as [|e l IH]; intros b r0 Hr0 Hneg.
  - cbn in Hneg. lia.
  - destruct (entry_cases e b) as [Hs|[[Hs Hok]|[Hs Hr]]].
    + rewrite (set_cmd_loop_sleep e l r0 b Hs) in Hneg. cbn [value fst] in Hneg.
      destruct (IH b r0 Hr0 Hneg) as (k & r & Hk).
      exists (S k), r. now rewrite write_fails_at_sleep.
    + rewrite (set_cmd_loop_write_ok e l r0 b Hs Hok) in Hneg.
      cbn [value fst] in Hneg.
      destruct (IH _ _ Hok Hneg) as (k & r & Hk).
      exists (S k), r. now rewrite write_fails_at_write_ok.
    + exists 0%nat, (fst (dsi_transfer b (entry_write e))).
      now apply write_fails_at_head.
Qed.

(** The hardware events of a run are the actions of a prefix of the list. *)
Lemma set_cmd_loop_prefix (l : list cmd_dsi) :
  forall (b : B) (r0 : Z),
    exists n, hw (events (set_cmd_loop l r0 b)) = map entry_event (firstn n l).
Proof.
  induction l as [|e l IH]; intros b r0.
  - exists 0%nat. reflexivity.
  - destruct (entry_cases e b) as [Hs|[[Hs Hok]|[Hs Hr]]].
    + rewrite (set_cmd_loop_sleep e l r0 b Hs). cbn [events snd].
      destruct (IH b r0) as [n Hn]. exists (S n).
      cbn [firstn map]. unfold hw in *. cbn [filter is_hw]. rewrite Hn.
      unfold entry_event at 2. unfold SLEEP_CMD in Hs. rewrite Hs. reflexivity.
    + rewrite (set_cmd_loop_write_ok e l r0 b Hs Hok). cbn [events snd].
      destruct (IH (snd (dsi_transfer b (entry_write e)))
                  (fst (dsi_transfer b (entry_write e)))) as [n Hn].
      exists (S n). cbn [firstn map]. unfold hw in *. cbn [filter is_hw].
      rewrite Hn. unfold entry_event at 2.
      apply Z.eqb_neq in Hs. unfold SLEEP_CMD in Hs. rewrite Hs. reflexivity.
    + rewrite (set_cmd_loop_write_fail e l r0 b Hs Hr). cbn [events snd].
      exists 1%nat. cbn [firstn map]. unfold entry_event.
      apply Z.eqb_neq in Hs. unfold SLEEP_CMD in Hs. rewrite Hs. reflexivity.
Qed.

(** The first list being applied in full, the loop goes on with the second
    from where the first left the host and [ret]. *)
Lemma set_cmd_loop_app (l1 l2 : list cmd_dsi) :
  forall (b : B) (r0 : Z),
    writes_succeed l1 b = true ->
    set_cmd_loop (l1 ++ l2) r0 b =
    (value (set_cmd_loop l2 (value (set_cmd_loop l1 r0 b))
              (host (set_cmd_loop l1 r0 b))),
     host (set_cmd_loop l2 (value (set_cmd_loop l1 r0 b))
             (host (set_cmd_loop l1 r0 b))),
     events (set_cmd_loop l1 r0 b)
     ++ events (set_cmd_loop l2 (value (set_cmd_loop l1 r0 b))
                  (host (set_cmd_loop l1 r0 b)))).
Proof.
  induction l1 as [|e l1 IH]; intros b r0 Hw.
  - cbn [app set_cmd_loop ret value host events fst snd].
    destruct (set_cmd_loop l2 r0 b) as [[v h] t]. reflexivity.
  - cbn [writes_succeed] in Hw. cbn [app].
    destruct (cmd e =? 0) eqn:Hs.
    + apply Z.eqb_eq in Hs.
      rewrite (set_cmd_loop_sleep e (l1 ++ l2) r0 b Hs).
      rewrite (set_cmd_loop_sleep e l1 r0 b Hs).
      cbn [value host events fst snd]. rewrite (IH b r0 Hw).
      reflexivity.
    + apply andb_prop in Hw. destruct Hw as [Hok Hw].
      apply Z.leb_le in Hok. apply Z.eqb_neq in Hs.
      rewrite (set_cmd_loop_write_ok e (l1 ++ l2) r0 b Hs Hok).
      rewrite (set_cmd_loop_write_ok e l1 r0 b Hs Hok).
      cbn [value host events fst snd]. rewrite (IH _ _ Hw).
      reflexivity.
Qed.

(** A refused write in the first list: the second list is never looked at. *)
Lemma set_cmd_loop_app_refused (l1 l2 : list cmd_dsi) :
  forall (k : nat) (b : B) (r0 r : Z),
    write_fails_at l1 k b = Some r ->
    set_cmd_loop (l1 ++ l2) r0 b = set_cmd_loop l1 r0 b.
Proof.
  induction l1 as [|e l1 IH]; intros k b r0 r Hk.
  - destruct k; discriminate Hk.
  - cbn [app]. destruct (entry_cases e b) as [Hs|[[Hs Hok]|[Hs Hr]]].
    + destruct k as [|k].
      { unfold write_fails_at in Hk. cbn [nth_error] in Hk.
        unfold SLEEP_CMD in Hs. rewrite Hs in Hk.
        rewrite andb_false_r in Hk. discriminate Hk. }
      rewrite write_fails_at_sleep in Hk by exact Hs.
      rewrite (set_cmd_loop_sleep e (l1 ++ l2) r0 b Hs).
      rewrite (set_cmd_loop_sleep e l1 r0 b Hs).
      now rewrite (IH k b r0 r Hk).
    + destruct k as [|k].
      { unfold write_fails_at in Hk.
        cbn [nth_error firstn host_after writes_succeed andb] in Hk.
        destruct (negb (cmd e =? 0)); cbn [andb] in Hk; [|discriminate Hk].
        destruct (fst (dsi_transfer b (entry_write e)) <? 0) eqn:Hlt;
          [|discriminate Hk].
        apply Z.ltb_lt in Hlt. lia. }
      rewrite write_fails_at_write_ok in Hk by assumption.
      rewrite (set_cmd_loop_write_ok e (l1 ++ l2) r0 b Hs Hok).
      rewrite (set_cmd_loop_write_ok e l1 r0 b Hs Hok).
      now rewrite (IH k _ _ r Hk).
    + rewrite (set_cmd_loop_write_fail e (l1 ++ l2) r0 b Hs Hr).
      now rewrite (set_cmd_loop_write_fail e l1 r0 b Hs Hr).
Qed.

(** The start value of [ret] shows in the return value at most. *)
Lemma set_cmd_loop_ret_irrelevant (l : list cmd_dsi) :
  forall (b : B) (r0 r0' : Z),
    host (set_cmd_loop l r0 b) = host (set_cmd_loop l r0' b) /\
    events (set_cmd_loop l r0 b) = events (set_cmd_loop l r0' b) /\
    (forallb is_sleep_entry l = false ->
     value (set_cmd_loop l r0 b) = value (set_cmd_loop l r0' b)).
Proof.
  induction l as [|e l IH]; intros b r0 r0'.
  - cbn. repeat split. discriminate.
  - destruct (entry_cases e b) as [Hs|[[Hs Hok]|[Hs Hr]]].
    + rewrite (set_cmd_loop_sleep e l r0 b Hs), (set_cmd_loop_sleep e l r0' b Hs).
      cbn [value host events fst snd forallb].
      destruct (IH b r0 r0') as (Hh & Ht & Hv).
      assert (Hse : is_sleep_entry e = true) by (apply Z.eqb_eq; exact Hs).
      rewrite Hse. cbn [andb]. repeat split; auto. now rewrite Ht.
    + rewrite (set_cmd_loop_write_ok e l r0 b Hs Hok),
        (set_cmd_loop_write_ok e l r0' b Hs Hok).
      repeat split.
    + rewrite (set_cmd_loop_write_fail e l r0 b Hs Hr),
        (set_cmd_loop_write_fail e l r0' b Hs Hr).
      repeat split.
Qed.

(** A list of sleeps leaves [ret] and the host alone. *)
Lemma set_cmd_loop_sleeps (l : list cmd_dsi) :
  forall (b : B) (r0 : Z),
    forallb is_sleep_entry l = true ->
    value (set_cmd_loop l r0 b) = r0 /\
    host (set_cmd_loop l r0 b) = b /\
    hw (events (set_cmd_loop l r0 b)) = map (fun e => Msleep (param e)) l.
Proof.
  induction l as [|e l IH]; intros b r0 Hall.
  - cbn. auto.
  - cbn [forallb] in Hall. apply andb_prop in Hall. destruct Hall as [He Hall].
    apply Z.eqb_eq in He. rewrite (set_cmd_loop_sleep e l r0 b He).
    cbn [value host events fst snd map].
    destruct (IH b r0 Hall) as (Hv & Hh & Ht).
    repeat split; auto. unfold hw in *. cbn [filter is_hw]. now rewrite Ht.
Qed.

Lemma in_firstn {A : Type} (x : A) (n : nat) (l : list A) :
  In x (firstn n l) -> In x l.
Proof.
  intros Hin. rewrite <- (firstn_skipn n l). apply in_or_app. now left.
Qed.

(** X1. When the host accepts every write among the first [count] entries,
    [set_cmd_rm69080] applies these [count] entries in order and no other,
    leaves the host as these writes leave it, and returns a value that is
    not negative. *)
Theorem set_cmd_rm69080_all_applied
  (cmd_list : list cmd_dsi) (count : nat) (b : B) :
  writes_succeed (firstn count cmd_list) b = true ->
  0 <= value (set_cmd_rm69080 cmd_list count b) /\
  host (set_cmd_rm69080 cmd_list count b) =
    host_after (firstn count cmd_list) b /\
  hw (events (set_cmd_rm69080 cmd_list count b)) =
    map entry_event (firstn count cmd_list).
Proof.
  intros Hw. unfold set_cmd_rm69080.
  apply set_cmd_loop_all_applied; [exact Hw|lia].
Qed.

(** X2. On success the sequencer returns what the host answered to the last
    write of the list, not 0: for a list [pre ++ e :: post] whose writes are
    all accepted, where [e] is a write and [post] holds sleeps only, the
    return value is the answer to the write of [e]. *)
Theorem set_cmd_rm69080_returns_last_answer
  (pre post : list cmd_dsi) (e : cmd_dsi) (b : B) :
  cmd e <> SLEEP_CMD ->
  forallb is_sleep_entry post = true ->
  writes_succeed (pre ++ [e]) b = true ->
  value (set_cmd_rm69080 (pre ++ e :: post)
           (COUNT_CMD (pre ++ e :: post)) b) =
    fst (dsi_transfer (host_after pre b) (entry_write e)).
Proof.
  intros He Hpost Hw. unfold set_cmd_rm69080, COUNT_CMD. rewrite firstn_all.
  change (pre ++ e :: post) with (pre ++ [e] ++ post).
  rewrite app_assoc. rewrite (set_cmd_loop_app (pre ++ [e]) post b 0 Hw).
  set (X := set_cmd_loop (pre ++ [e]) 0 b).
  change (value (set_cmd_loop post (value X) (host X)) =
          fst (dsi_transfer (host_after pre b) (entry_write e))).
  rewrite (proj1 (set_cmd_loop_sleeps post (host X) (value X) Hpost)).
  subst X.
  assert (Hpre : writes_succeed pre b = true).
  { clear - Hw. revert b Hw. induction pre as [|x pre IH]; intros b Hw.
    - reflexivity.
    - cbn [app writes_succeed] in *. destruct (cmd x =? 0); [now apply IH|].
      apply andb_prop in Hw. destruct Hw as [-> Hw]. now apply IH. }
  rewrite (set_cmd_loop_app pre [e] b 0 Hpre).
  set (Y := set_cmd_loop pre 0 b).
  change (value (set_cmd_loop [e] (value Y) (host Y)) =
          fst (dsi_transfer (host_after pre b) (entry_write e))).
  subst Y.
  destruct (set_cmd_loop_all_applied pre b 0 Hpre (Z.le_refl 0)) as (_ & Hh & _).
  rewrite Hh.
  assert (Hlast : 0 <= fst (dsi_transfer (host_after pre b) (entry_write e))).
  { clear - Hw He. revert b Hw. induction pre as [|x pre IH]; intros b Hw.
    - cbn [app writes_succeed host_after] in *.
      apply Z.eqb_neq in He. unfold SLEEP_CMD in He. rewrite He in Hw.
      apply andb_prop in Hw. destruct Hw as [Hok _]. now apply Z.leb_le.
    - cbn [app writes_succeed host_after] in *. destruct (cmd x =? 0);
        [now apply IH|].
      apply andb_prop in Hw. destruct Hw as [_ Hw]. now apply IH. }
  rewrite (set_cmd_loop_write_ok e [] _ (host_after pre b) He Hlast).
  reflexivity.
Qed.

(** X3. A list without any write (in particular the empty list, or
    [count = 0]) costs no bus traffic: the sequencer returns 0, leaves the
    host untouched and sleeps once per entry, for [param] milliseconds. *)
Theorem set_cmd_rm69080_sleeps_only
  (cmd_list : list cmd_dsi) (count : nat) (b : B) :
  forallb is_sleep_entry (firstn count cmd_list) = true ->
  value (set_cmd_rm69080 cmd_list count b) = 0 /\
  host (set_cmd_rm69080 cmd_list count b) = b /\
  hw (events (set_cmd_rm69080 cmd_list count b)) =
    map (fun e => Msleep (param e)) (firstn count cmd_list).
Proof.
  intros Hall. unfold set_cmd_rm69080. now apply set_cmd_loop_sleeps.
Qed.

(** X4. The return value of the sequencer is negative exactly when the host
    refused a write: there is then an index [k] whose write is answered
    with a negative value after the writes before it were accepted. *)
Theorem set_cmd_rm69080_negative_iff_refused (cmd_list : list cmd_dsi) (b : B) :
  value (set_cmd_rm69080 cmd_list (COUNT_CMD cmd_list) b) < 0 <->
  exists k r, write_fails_at cmd_list k b = Some r.
Proof.
  unfold set_cmd_rm69080, COUNT_CMD. rewrite firstn_all. split.
  - apply set_cmd_loop_negative. lia.
  - intros (k & r & Hk).
    destruct (set_cmd_loop_first_failure cmd_list k b 0 r Hk)
      as (e & applied & _ & _ & Hr & Hv & _).
    now rewrite Hv.
Qed.

(** X5. Whatever the host answers, the bus writes and sleeps of a run are
    the actions of the entries [0 .. n-1] for some [n <= count], in list
    order: no entry is skipped, repeated or taken out of order. *)
Theorem set_cmd_rm69080_in_list_order
  (cmd_list : list cmd_dsi) (count : nat) (b : B) :
  exists n,
    (n <= count)%nat /\
    hw (events (set_cmd_rm69080 cmd_list count b)) =
      map entry_event (firstn n cmd_list).
Proof.
  unfold set_cmd_rm69080.
  destruct (set_cmd_loop_prefix (firstn count cmd_list) b 0) as [n Hn].
  exists (Nat.min n count). split; [apply Nat.le_min_r|].
  now rewrite Hn, firstn_firstn.
Qed.

(** X6. Every bus request of the sequencer is the two-byte generic write
    [cmd, param] of a non-sleep entry among the first [count], and every
    sleep lasts the [param] of a sleep entry among them. *)
Theorem set_cmd_rm69080_only_entry_actions
  (cmd_list : list cmd_dsi) (count : nat) (b : B) (ev : event) :
  In ev (events (set_cmd_rm69080 cmd_list count b)) ->
  match ev with
  | Bus q =>
      exists e, In e (firstn count cmd_list) /\ cmd e <> SLEEP_CMD /\
                q = GenericWrite [cmd e; param e]
  | Msleep ms =>
      exists e, In e (firstn count cmd_list) /\ cmd e = SLEEP_CMD /\
                ms = param e
  | DevInfo _ _ | DevErr _ _ => True
  end.
Proof.
  intros Hin.
  assert (Hhw : is_hw ev = true ->
                exists e, In e (firstn count cmd_list) /\ ev = entry_event e).
  { intros Hev. unfold set_cmd_rm69080 in Hin.
    destruct (set_cmd_loop_prefix (firstn count cmd_list) b 0) as [n Hn].
    assert (Hin' : In ev (hw (events (set_cmd_loop (firstn count cmd_list) 0 b))))
      by (apply filter_In; split; assumption).
    rewrite Hn in Hin'. apply in_map_iff in Hin'.
    destruct Hin' as (e & He & Hine). exists e. split; [|now symmetry].
    eapply in_firstn; exact Hine. }
  destruct ev as [q|ms|f a|f a]; auto.
  - destruct (Hhw eq_refl) as (e & Hine & Hev). exists e.
    unfold entry_event in Hev. destruct (cmd e =? 0) eqn:Hs; [discriminate Hev|].
    injection Hev as ->. apply Z.eqb_neq in Hs. repeat split; auto.
  - destruct (Hhw eq_refl) as (e & Hine & Hev). exists e.
    unfold entry_event in Hev. destruct (cmd e =? 0) eqn:Hs; [|discriminate Hev].
    injection Hev as ->. apply Z.eqb_eq in Hs. repeat split; auto.
Qed.

(** X7. Splitting a list in two: when the writes of the first part are all
    accepted, running the whole list has the events of the first part
    followed by those of the second part run on the host the first one
    left, and ends on the same host. *)
Theorem set_cmd_rm69080_app (l1 l2 : list cmd_dsi) (b : B) :
  writes_succeed l1 b = true ->
  let whole := set_cmd_rm69080 (l1 ++ l2) (COUNT_CMD (l1 ++ l2)) b in
  let first := set_cmd_rm69080 l1 (COUNT_CMD l1) b in
  let second := set_cmd_rm69080 l2 (COUNT_CMD l2) (host first) in
  events whole = events first ++ events second /\
  host whole = host second /\
  (forallb is_sleep_entry l2 = false -> value whole = value second) /\
  (forallb is_sleep_entry l2 = true -> value whole = value first).
Proof.
  intros Hw. cbn zeta. unfold set_cmd_rm69080, COUNT_CMD.
  rewrite !firstn_all. rewrite (set_cmd_loop_app l1 l2 b 0 Hw).
  cbn [value host events fst snd].
  destruct (set_cmd_loop_ret_irrelevant l2 (host (set_cmd_loop l1 0 b))
              (value (set_cmd_loop l1 0 b)) 0) as (Hh & Ht & Hv).
  unfold value, host, events in *.
  repeat split.
  - now rewrite Ht.
  - exact Hh.
  - exact Hv.
  - intros Hall.
    destruct (set_cmd_loop_sleeps l2 (snd (fst (set_cmd_loop l1 0 b)))
                (fst (fst (set_cmd_loop l1 0 b))) Hall) as (Hv' & _).
    exact Hv'.
Qed.

(** X8. When a write of the first part is refused, running the whole list
    is running the first part: nothing of the second part is applied. *)
Theorem set_cmd_rm69080_refusal_hides_tail
  (l1 l2 : list cmd_dsi) (k : nat) (b : B) (r : Z) :
  write_fails_at l1 k b = Some r ->
  set_cmd_rm69080 (l1 ++ l2) (COUNT_CMD (l1 ++ l2)) b =
  set_cmd_rm69080 l1 (COUNT_CMD l1) b.
Proof.
  intros Hk. unfold set_cmd_rm69080, COUNT_CMD. rewrite !firstn_all.
  exact (set_cmd_loop_app_refused l1 l2 k b 0 r Hk).
Qed.

End SequencerFacts.

(** ** Further properties of the lifecycle callbacks *)

Section LifecycleFacts.
Context {B : Type} {H : DsiHost B}.

Lemma rm69080_prepare_never_refused (ctx : rm69080) (b : B) :
  never_refuses ->
  value (rm69080_prepare ctx b) = (0, set_prepared ctx true).
Proof.
  intros Hok.
  pose proof (rm69080_prepare_run ctx b) as Hrun. cbn zeta in Hrun.
  set (s := set_cmd_rm69080 rm69080_400x400_mod
              (COUNT_CMD rm69080_400x400_mod) b) in *.
  pose proof (Hok (host s) DcsExitSleepMode) as H1.
  pose proof (Hok (snd (dsi_transfer (host s) DcsExitSleepMode))
                DcsSetDisplayOn) as H2.
  cbn [transfer_succeeds] in H1, H2.
  rewrite H1, H2 in Hrun. cbn [negb] in Hrun. now rewrite Hrun.
Qed.

(** X10. [enable], [disable] and [unprepare] called a second time in a row
    do nothing: the second call returns 0, leaves the state and the host as
    the first call left them, and causes no bus request and no sleep. *)
Theorem lifecycle_second_call_is_noop (o : panel_op) (ctx : rm69080) (b : B) :
  o <> OpPrepare ->
  let once := rm69080_funcs o ctx b in
  let twice := rm69080_funcs o (snd (value once)) (host once) in
  value twice = (0, snd (value once)) /\
  host twice = host once /\
  hw (events twice) = [].
Proof.
  intros Ho. cbn zeta. destruct o; cbn [rm69080_funcs]; try congruence.
  - rewrite !rm69080_disable_run. repeat split.
  - rewrite rm69080_unprepare_ctx.
    pose proof (rm69080_unprepare_run (set_prepared ctx false)
                  (host (rm69080_unprepare ctx b))) as Hrun.
    cbn zeta in Hrun. rewrite Hrun. repeat split.
  - rewrite !rm69080_enable_run. repeat split.
Qed.

Lemma rm69080_funcs_enabled (o : panel_op) (ctx : rm69080) (b : B) :
  enabled (snd (value (rm69080_funcs o ctx b))) =
  enabled_after [o] (enabled ctx).
Proof.
  destruct o; cbn [rm69080_funcs enabled_after fold_left].
  - rewrite rm69080_disable_run. reflexivity.
  - rewrite rm69080_unprepare_ctx. reflexivity.
  - destruct (rm69080_prepare_ctx ctx b) as [-> | ->]; reflexivity.
  - rewrite rm69080_enable_run. reflexivity.
Qed.

(** X11. The bus has no say in [enabled]: after any sequence of lifecycle
    calls, on any host, [enabled] is what the last [enable] or [disable] of
    the sequence made it, or its initial value when there is none. *)
Theorem enabled_ignores_bus (ops : list panel_op) (ctx : rm69080) (b : B) :
  enabled (final ops ctx b) = enabled_after ops (enabled ctx).
Proof.
  revert ctx b. induction ops as [|o ops IH]; intros ctx b.
  - reflexivity.
  - cbn [final]. rewrite IH. rewrite rm69080_funcs_enabled. reflexivity.
Qed.

(** X12. [rm69080_prepare] returns 0 exactly when the host answers both
    exit-sleep-mode and display-on with 0, whatever became of the vendor
    table before; it sets [prepared] when it returns 0 and leaves the
    context as it was when it returns anything else. *)
Theorem rm69080_prepare_returns_zero_iff (ctx : rm69080) (b : B) :
  let s := set_cmd_rm69080 rm69080_400x400_mod
             (COUNT_CMD rm69080_400x400_mod) b in
  let r1 := fst (dsi_transfer (host s) DcsExitSleepMode) in
  let b1 := snd (dsi_transfer (host s) DcsExitSleepMode) in
  let r2 := fst (dsi_transfer b1 DcsSetDisplayOn) in
  let p := rm69080_prepare ctx b in
  (fst (value p) = 0 <-> r1 = 0 /\ r2 = 0) /\
  (fst (value p) = 0 -> snd (value p) = set_prepared ctx true) /\
  (fst (value p) <> 0 -> snd (value p) = ctx).
Proof.
  cbn zeta. pose proof (rm69080_prepare_run ctx b) as Hrun.
  cbn zeta in Hrun. rewrite Hrun. clear Hrun.
  set (s := set_cmd_rm69080 rm69080_400x400_mod
              (COUNT_CMD rm69080_400x400_mod) b).
  destruct (Z.eqb_spec (fst (dsi_transfer (host s) DcsExitSleepMode)) 0)
    as [E1|E1]; cbn [negb].
  - destruct (Z.eqb_spec
                (fst (dsi_transfer
                        (snd (dsi_transfer (host s) DcsExitSleepMode))
                        DcsSetDisplayOn)) 0) as [E2|E2];
      cbn [negb value fst snd]; repeat split; intros; try tauto; try lia.
  - cbn [value fst snd]. repeat split; intros; try tauto; try lia.
Qed.

(** X13. [rm69080_prepare] never reads the panel state: its return value,
    its events and the host it leaves are the same for any two contexts. *)
Theorem rm69080_prepare_ignores_state (ctx ctx' : rm69080) (b : B) :
  fst (value (rm69080_prepare ctx b)) = fst (value (rm69080_prepare ctx' b)) /\
  host (rm69080_prepare ctx b) = host (rm69080_prepare ctx' b) /\
  events (rm69080_prepare ctx b) = events (rm69080_prepare ctx' b).
Proof.
  pose proof (rm69080_prepare_run ctx b) as Hrun. cbn zeta in Hrun.
  pose proof (rm69080_prepare_run ctx' b) as Hrun'. cbn zeta in Hrun'.
  rewrite Hrun, Hrun'.
  repeat match goal with
         | |- context [if ?c then _ else _] => destruct c
         end; repeat split.
Qed.


(** X15. On a host that refuses nothing, disable, unprepare, prepare takes
    the panel from any state to [prepared = true, enabled = false], the
    state a first prepare gives a fresh panel. *)
Theorem disable_unprepare_prepare_cycle (ctx : rm69080) (b b' : B) :
  never_refuses ->
  final [OpDisable; OpUnprepare; OpPrepare] ctx b =
    {| prepared := true; enabled := false |} /\
  final [OpPrepare] rm69080_zeroed b' =
    final [OpDisable; OpUnprepare; OpPrepare] ctx b.
Proof.
  intros Hok. cbn [final rm69080_funcs].
  rewrite rm69080_disable_run. cbn [value host fst snd].
  rewrite rm69080_unprepare_ctx.
  rewrite !(rm69080_prepare_never_refused _ _ Hok). split; reflexivity.
Qed.

(** X16. Teardown undoes bring-up, whatever the host answers: on an
    unprepared panel, prepare (successful or not) followed by unprepare
    gives back the initial state, and on a disabled panel so does enable
    followed by disable. *)
Theorem teardown_undoes_bringup (ctx : rm69080) (b b' : B) :
  (prepared ctx = false ->
   snd (value (rm69080_unprepare (snd (value (rm69080_prepare ctx b))) b')) = ctx) /\
  (enabled ctx = false ->
   snd (value (rm69080_disable (snd (value (rm69080_enable ctx b))) b')) = ctx).
Proof.
  split; intros Hc.
  - rewrite rm69080_unprepare_ctx.
    destruct (rm69080_prepare_ctx ctx b) as [-> | ->];
      destruct ctx as [p e]; cbn in *; subst; reflexivity.
  - rewrite rm69080_enable_run, rm69080_disable_run.
    destruct ctx as [p e]; cbn in *; subst; reflexivity.
Qed.

End LifecycleFacts.

(** ** Further properties of mode enumeration *)

Section ModeFacts.
Context {B : Type}.
Variable drm_mode_vrefresh : drm_display_mode -> Z.
Variable drm_mode_name : drm_display_mode -> string.

(** X17. [rm69080_get_modes] works on a panel in any state and never
    touches the bus: its result is the same for any two contexts, the host
    is as before, and there is no bus request and no sleep in its trace. *)
Theorem rm69080_get_modes_ignores_panel
  (ctx ctx' : rm69080) (connector : drm_connector) (b : B) :
  rm69080_get_modes drm_mode_vrefresh drm_mode_name ctx connector b =
    rm69080_get_modes drm_mode_vrefresh drm_mode_name ctx' connector b /\
  host (rm69080_get_modes drm_mode_vrefresh drm_mode_name ctx connector b) = b /\
  hw (events (rm69080_get_modes drm_mode_vrefresh drm_mode_name
                ctx connector b)) = [].
Proof.
  rewrite !rm69080_get_modes_run. cbn zeta.
  destruct (drm_mode_duplicate (dev connector)
              (nth 0 rm69080_modes drm_display_mode_zero)); repeat split.
Qed.

(** X18. Enumerating twice registers the mode twice: when the mode object
    can be allocated, a second [rm69080_get_modes] on the connector that
    the first one returned again returns 1, and the connector then holds
    its earlier modes followed by two copies of the panel mode. *)
Theorem rm69080_get_modes_twice
  (ctx : rm69080) (connector : drm_connector) (b b' : B) :
  mode_alloc_ok (dev connector) = true ->
  let md :=
    with_type
      (drm_mode_set_name drm_mode_name (nth 0 rm69080_modes drm_display_mode_zero))
      DRM_MODE_TYPE_DRIVER in
  exists c1 c2,
    value (rm69080_get_modes drm_mode_vrefresh drm_mode_name ctx connector b) =
      Returns (1, c1) /\
    value (rm69080_get_modes drm_mode_vrefresh drm_mode_name ctx c1 b') =
      Returns (1, c2) /\
    probed_modes c1 = probed_modes connector ++ [md] /\
    probed_modes c2 = probed_modes connector ++ [md; md].
Proof.
  intros Hok. cbn zeta.
  eexists. eexists.
  rewrite rm69080_get_modes_run. cbn zeta. unfold drm_mode_duplicate at 1.
  rewrite Hok. cbn [value fst].
  split; [reflexivity|].
  rewrite rm69080_get_modes_run. cbn zeta. unfold drm_mode_duplicate at 1.
  cbn [dev drm_mode_probed_add with_display_info]. rewrite Hok. cbn [value fst].
  split; [reflexivity|].
  cbn [probed_modes drm_mode_probed_add with_display_info].
  split; [reflexivity|]. rewrite <- app_assoc. reflexivity.
Qed.

(** X19. Every return of [rm69080_get_modes] leaves the connector on the
    same device with a physical size of 0 x 0 mm, whatever size it had, and
    the mode it added has the type DRIVER alone, the name given by
    [drm_mode_set_name], and the pixel clock 11094 kHz. *)
Theorem rm69080_get_modes_resets_physical_size
  (ctx : rm69080) (connector connector' : drm_connector) (b : B) (n : Z) :
  value (rm69080_get_modes drm_mode_vrefresh drm_mode_name ctx connector b) =
    Returns (n, connector') ->
  dev connector' = dev connector /\
  display_info_width_mm connector' = 0 /\
  display_info_height_mm connector' = 0 /\
  exists md,
    probed_modes connector' = probed_modes connector ++ [md] /\
    type md = DRM_MODE_TYPE_DRIVER /\
    name md = drm_mode_name (nth 0 rm69080_modes drm_display_mode_zero) /\
    clock md = 11094.
Proof.
  rewrite rm69080_get_modes_run. cbn zeta. unfold drm_mode_duplicate.
  destruct (mode_alloc_ok (dev connector)); cbn [value fst]; [|discriminate].
  intros Hret. injection Hret as <- <-.
  repeat split. eexists. split; [reflexivity|]. repeat split.
Qed.

End ModeFacts.

(** ** Properties of probe and remove *)

Section BindingFacts.
Context {K : Type} {core : PanelCore K} {hdrs : KernelHeaders}.

Lemma rm69080_probe_run (dsi : mipi_dsi_device) (k : K) :
  let dsi' :=
    mk_dsi
      (Z.lor (Z.lor MIPI_DSI_MODE_VIDEO MIPI_DSI_MODE_VIDEO_SYNC_PULSE)
         MIPI_DSI_MODE_LPM)
      MIPI_DSI_FMT_RGB888 1 (drvdata dsi) in
  let p := fst (core_call k DevmKzalloc) in
  let k2 :=
    core_after [DevmKzalloc; OfGraphGetNextEndpoint;
                DrmPanelInit (panel_base p) DRM_MODE_CONNECTOR_DSI] k in
  let r := fst (core_call k2 (DrmPanelAdd (panel_base p))) in
  let k3 := snd (core_call k2 (DrmPanelAdd (panel_base p))) in
  let a := fst (core_call k3 (MipiDsiAttach dsi')) in
  let k4 := snd (core_call k3 (MipiDsiAttach dsi')) in
  rm69080_probe dsi k =
  if p =? 0 then
    ((- ENOMEM, dsi', None), snd (core_call k DevmKzalloc),
     [banner "rm69080_probe"; DevErr "devm_kzalloc() failed!\n" []])
  else if negb (r =? 0) then
    ((r, dsi', Some (p, rm69080_zeroed)), k3,
     [banner "rm69080_probe"; DevErr "drm_panel_add() failed!\n" []])
  else if negb (a =? 0) then
    ((0, dsi', Some (p, rm69080_zeroed)),
     snd (core_call k4 (DrmPanelRemove (panel_base p))),
     [banner "rm69080_probe";
      DevErr "mipi_dsi_attach() failed: %d\n" [ArgD a]])
  else
    ((0, dsi', Some (p, rm69080_zeroed)), k4, [banner "rm69080_probe"]).
Proof.
  cbn zeta.
  unfold rm69080_probe, bind, call, dev_info, dev_err, emit, ret, banner,
    core_after, panel_base.
  cbn [fold_left].
  destruct (core_call k DevmKzalloc) as [p k1]. cbn [fst snd].
  destruct (p =? 0); [reflexivity|].
  destruct (core_call k1 OfGraphGetNextEndpoint) as [v1 k1']. cbn [fst snd].
  destruct (core_call k1' (DrmPanelInit p DRM_MODE_CONNECTOR_DSI)) as [v2 k2].
  cbn [fst snd].
  destruct (core_call k2 (DrmPanelAdd p)) as [r k3]. cbn [fst snd].
  destruct (negb (r =? 0)); [reflexivity|].
  match goal with
  | |- context [core_call k3 (MipiDsiAttach ?d)] =>
      destruct (core_call k3 (MipiDsiAttach d)) as [a k4]
  end.
  cbn [fst snd].
  destruct (negb (a =? 0)); [|reflexivity].
  destruct (core_call k4 (DrmPanelRemove p)) as [v3 k5]. reflexivity.
Qed.

(** X20. When [devm_kzalloc] gives NULL, [rm69080_probe] returns [-ENOMEM]
    without any further call into the core: nothing is initialised,
    registered or attached, and no context exists. *)
Theorem rm69080_probe_no_memory (dsi : mipi_dsi_device) (k : K) :
  fst (core_call k DevmKzalloc) = 0 ->
  fst (fst (value (rm69080_probe dsi k))) = - ENOMEM /\
  snd (value (rm69080_probe dsi k)) = None /\
  host (rm69080_probe dsi k) = core_after [DevmKzalloc] k.
Proof.
  intros Hp. pose proof (rm69080_probe_run dsi k) as Hrun.
  cbn zeta in Hrun. rewrite Hrun. rewrite Hp. repeat split.
Qed.

(** X21. When [drm_panel_add] answers a non-zero value, [rm69080_probe]
    returns that value and stops there: the bus is never attached. *)
Theorem rm69080_probe_panel_add_fails (dsi : mipi_dsi_device) (k : K) :
  let p := fst (core_call k DevmKzalloc) in
  let k2 :=
    core_after [DevmKzalloc; OfGraphGetNextEndpoint;
                DrmPanelInit (panel_base p) DRM_MODE_CONNECTOR_DSI] k in
  let r := fst (core_call k2 (DrmPanelAdd (panel_base p))) in
  p <> 0 ->
  r <> 0 ->
  fst (fst (value (rm69080_probe dsi k))) = r /\
  host (rm69080_probe dsi k) =
    core_after [DevmKzalloc; OfGraphGetNextEndpoint;
                DrmPanelInit (panel_base p) DRM_MODE_CONNECTOR_DSI;
                DrmPanelAdd (panel_base p)] k.
Proof.
  cbn zeta. intros Hp Hr. pose proof (rm69080_probe_run dsi k) as Hrun.
  cbn zeta in Hrun. rewrite Hrun.
  apply Z.eqb_neq in Hp, Hr. rewrite Hp, Hr. cbn [negb]. repeat split.
Qed.

(** X22. A failed [mipi_dsi_attach] does not fail the probe: with the
    context allocated and the panel added, [rm69080_probe] returns 0
    whatever the attach answers; on a non-zero answer it logs the value and
    its last call takes the panel out of the registry again. *)
Theorem rm69080_probe_attach_failure_returns_zero
  (dsi : mipi_dsi_device) (k : K) :
  let dsi' :=
    mk_dsi
      (Z.lor (Z.lor MIPI_DSI_MODE_VIDEO MIPI_DSI_MODE_VIDEO_SYNC_PULSE)
         MIPI_DSI_MODE_LPM)
      MIPI_DSI_FMT_RGB888 1 (drvdata dsi) in
  let p := fst (core_call k DevmKzalloc) in
  let k2 :=
    core_after [DevmKzalloc; OfGraphGetNextEndpoint;
                DrmPanelInit (panel_base p) DRM_MODE_CONNECTOR_DSI] k in
  let r := fst (core_call k2 (DrmPanelAdd (panel_base p))) in
  let k3 := snd (core_call k2 (DrmPanelAdd (panel_base p))) in
  let a := fst (core_call k3 (MipiDsiAttach dsi')) in
  p <> 0 ->
  r = 0 ->
  fst (fst (value (rm69080_probe dsi k))) = 0 /\
  (a <> 0 ->
   host (rm69080_probe dsi k) =
     core_after [MipiDsiAttach dsi'; DrmPanelRemove (panel_base p)] k3 /\
   events (rm69080_probe dsi k) =
     [banner "rm69080_probe";
      DevErr "mipi_dsi_attach() failed: %d\n" [ArgD a]]) /\
  (a = 0 ->
   host (rm69080_probe dsi k) = core_after [MipiDsiAttach dsi'] k3 /\
   events (rm69080_probe dsi k) = [banner "rm69080_probe"]).
Proof.
  cbn zeta. intros Hp Hr. pose proof (rm69080_probe_run dsi k) as Hrun.
  cbn zeta in Hrun. rewrite Hrun. clear Hrun.
  apply Z.eqb_neq in Hp. rewrite Hp, Hr. cbn [Z.eqb negb].
  match goal with
  | |- context [negb (?x =? 0)] => destruct (Z.eqb_spec x 0) as [Ha|Ha]
  end; cbn [negb value host events fst snd]; repeat split; intros;
    try contradiction; try reflexivity.
Qed.

(** X23. In every case [rm69080_probe] leaves the device configured for
    one lane, RGB888 and video mode with sync pulses and low-power
    commands, even when it fails, and never stores its context in the
    driver data; a non-zero return value means that the allocation failed
    or that [drm_panel_add] answered that value. *)
Theorem rm69080_probe_device_and_return (dsi : mipi_dsi_device) (k : K) :
  let p := fst (core_call k DevmKzalloc) in
  let k2 :=
    core_after [DevmKzalloc; OfGraphGetNextEndpoint;
                DrmPanelInit (panel_base p) DRM_MODE_CONNECTOR_DSI] k in
  let r := fst (core_call k2 (DrmPanelAdd (panel_base p))) in
  let pr := rm69080_probe dsi k in
  snd (fst (value pr)) =
    mk_dsi
      (Z.lor (Z.lor MIPI_DSI_MODE_VIDEO MIPI_DSI_MODE_VIDEO_SYNC_PULSE)
         MIPI_DSI_MODE_LPM)
      MIPI_DSI_FMT_RGB888 1 (drvdata dsi) /\
  (fst (fst (value pr)) <> 0 ->
   (p = 0 /\ fst (fst (value pr)) = - ENOMEM) \/
   (p <> 0 /\ r <> 0 /\ fst (fst (value pr)) = r)) /\
  (forall ctx c, snd (value pr) = Some (ctx, c) ->
                 ctx = p /\ p <> 0 /\ c = rm69080_zeroed).
Proof.
  cbn zeta. pose proof (rm69080_probe_run dsi k) as Hrun.
  cbn zeta in Hrun. rewrite Hrun. clear Hrun.
  destruct (Z.eqb_spec (fst (core_call k DevmKzalloc)) 0) as [Hp|Hp].
  - cbn [value fst snd]. split; [reflexivity|]. split.
    + intros _. left. split; [exact Hp|reflexivity].
    + intros ? ? Hd. discriminate Hd.
  - match goal with
    | |- context [negb (?x =? 0)] => destruct (Z.eqb_spec x 0) as [Hr|Hr]
    end; cbn [negb].
    + match goal with
      | |- context [negb (?x =? 0)] => destruct (Z.eqb_spec x 0) as [Ha|Ha]
      end; cbn [negb value fst snd];
        (split; [reflexivity|]; split;
         [intros Hne; contradiction Hne; reflexivity
         |intros ? ? Hd; injection Hd as <- <-; auto]).
    + cbn [value fst snd]. split; [reflexivity|]. split.
      * intros _. right. auto.
      * intros ? ? Hd. injection Hd as <- <-. auto.
Qed.

(** X24. [rm69080_remove] after [rm69080_probe]: it returns 0, detaches
    the configured device and hands [drm_panel_remove] the panel found in
    the driver data the device had before the probe.  On a device without
    driver data this is the NULL-based panel, never the context that the
    probe allocated. *)
Theorem rm69080_remove_after_probe (dsi : mipi_dsi_device) (k : K) :
  let pr := rm69080_probe dsi k in
  let dsi' := snd (fst (value pr)) in
  let rm := rm69080_remove dsi' (host pr) in
  value rm = 0 /\
  host rm =
    core_after [MipiDsiDetach dsi'; DrmPanelRemove (panel_base (drvdata dsi))]
      (host pr) /\
  events rm = [banner "rm69080_remove"] /\
  (drvdata dsi = 0 ->
   forall ctx c, snd (value pr) = Some (ctx, c) ->
                 panel_base (drvdata dsi) <> panel_base ctx).
Proof.
  cbn zeta.
  assert (Hd : drvdata (snd (fst (value (rm69080_probe dsi k)))) = drvdata dsi).
  { pose proof (rm69080_probe_run dsi k) as Hrun. cbn zeta in Hrun.
    rewrite Hrun.
    repeat match goal with
           | |- context [if ?c then _ else _] => destruct c
           end; reflexivity. }
  split; [|split; [|split]].
  - unfold rm69080_remove, bind, call, dev_info, emit, ret.
    repeat match goal with
           | |- context [core_call ?x ?q] => destruct (core_call x q)
           end; reflexivity.
  - unfold rm69080_remove, bind, call, dev_info, emit, ret, core_after,
      mipi_dsi_get_drvdata. rewrite Hd. cbn [fold_left].
    repeat match goal with
           | |- context [core_call ?x ?q] => destruct (core_call x q); cbn [fst snd]
           end; reflexivity.
  - unfold rm69080_remove, bind, call, dev_info, emit, ret, banner.
    repeat match goal with
           | |- context [core_call ?x ?q] => destruct (core_call x q)
           end; reflexivity.
  - intros H0 ctx c Hsome. unfold panel_base. rewrite H0.
    pose proof (rm69080_probe_run dsi k) as Hrun. cbn zeta in Hrun.
    rewrite Hrun in Hsome.
    destruct (Z.eqb_spec (fst (core_call k DevmKzalloc)) 0) as [Hp|Hp].
    + discriminate Hsome.
    + repeat match type of Hsome with
             | context [if ?c then _ else _] => destruct c
             end; cbn [value fst snd] in Hsome;
        injection Hsome as <- _; congruence.
Qed.

End BindingFacts.

(** ** The further properties at concrete inputs *)

Lemma set_cmd_rm69080_all_applied_witness :
  writes_succeed (H := steady_host) (firstn 3 rm69080_400x400_mod) tt = true /\
  hw (events (set_cmd_rm69080 (H := steady_host) rm69080_400x400_mod 3 tt)) =
    [ Bus (GenericWrite [0xFE; 0x05]);
      Bus (GenericWrite [0x05; 0x00]);
      Bus (GenericWrite [0xFE; 0x07]) ].
Proof.
  split; [reflexivity|].
  exact (proj2 (proj2 (set_cmd_rm69080_all_applied (H := steady_host)
                         rm69080_400x400_mod 3 tt eq_refl))).
Defined.

(** The vendor table ends with a write: the steady host answers it with the
    two bytes sent, and that is what the sequencer returns. *)
Lemma set_cmd_rm69080_returns_last_answer_witness :
  cmd (mk_cmd 0x29 0x00) <> SLEEP_CMD /\
  value (set_cmd_rm69080 (H := steady_host) rm69080_400x400_mod
           (COUNT_CMD rm69080_400x400_mod) tt) = 2.
Proof.
  assert (He : cmd (mk_cmd 0x29 0x00) <> SLEEP_CMD) by discriminate.
  split; [exact He|].
  exact (set_cmd_rm69080_returns_last_answer (H := steady_host)
           (firstn 13 rm69080_400x400_mod) [] (mk_cmd 0x29 0x00) tt
           He eq_refl eq_refl).
Defined.

Lemma set_cmd_rm69080_sleeps_only_witness :
  forallb is_sleep_entry
    (firstn 2 [mk_cmd SLEEP_CMD 0x96; mk_cmd SLEEP_CMD 0x96; mk_cmd 0x29 0x00])
    = true /\
  value (set_cmd_rm69080 (H := scripted_host)
           [mk_cmd SLEEP_CMD 0x96; mk_cmd SLEEP_CMD 0x96; mk_cmd 0x29 0x00] 2
           third_write_refused) = 0 /\
  host (set_cmd_rm69080 (H := scripted_host)
          [mk_cmd SLEEP_CMD 0x96; mk_cmd SLEEP_CMD 0x96; mk_cmd 0x29 0x00] 2
          third_write_refused) = third_write_refused.
Proof.
  split; [reflexivity|].
  destruct (set_cmd_rm69080_sleeps_only (H := scripted_host)
              [mk_cmd SLEEP_CMD 0x96; mk_cmd SLEEP_CMD 0x96; mk_cmd 0x29 0x00] 2
              third_write_refused eq_refl) as (Hv & Hh & _).
  split; [exact Hv|exact Hh].
Defined.

Lemma set_cmd_rm69080_negative_iff_refused_witness :
  write_fails_at (H := scripted_host) rm69080_400x400_mod 2
    third_write_refused = Some (- EIO) /\
  value (set_cmd_rm69080 (H := scripted_host) rm69080_400x400_mod
           (COUNT_CMD rm69080_400x400_mod) third_write_refused) < 0.
Proof.
  split; [reflexivity|].
  apply (proj2 (set_cmd_rm69080_negative_iff_refused (H := scripted_host)
                  rm69080_400x400_mod third_write_refused)).
  exists 2%nat, (- EIO). reflexivity.
Defined.

Lemma set_cmd_rm69080_only_entry_actions_witness :
  In (Msleep 150)
    (events (set_cmd_rm69080 (H := steady_host) rm69080_400x400_mod
               (COUNT_CMD rm69080_400x400_mod) tt)) /\
  exists e,
    In e (firstn (COUNT_CMD rm69080_400x400_mod) rm69080_400x400_mod) /\
    cmd e = SLEEP_CMD /\ 150 = param e.
Proof.
  assert (Hin : In (Msleep 150)
                  (events (set_cmd_rm69080 (H := steady_host) rm69080_400x400_mod
                             (COUNT_CMD rm69080_400x400_mod) tt))).
  { vm_compute. do 12 right. left. reflexivity. }
  split; [exact Hin|].
  exact (set_cmd_rm69080_only_entry_actions (H := steady_host)
           rm69080_400x400_mod (COUNT_CMD rm69080_400x400_mod) tt
           (Msleep 150) Hin).
Defined.

Lemma set_cmd_rm69080_app_witness :
  writes_succeed (H := steady_host) (firstn 11 rm69080_400x400_mod) tt = true /\
  events (set_cmd_rm69080 (H := steady_host) rm69080_400x400_mod
            (COUNT_CMD rm69080_400x400_mod) tt) =
    events (set_cmd_rm69080 (H := steady_host) (firstn 11 rm69080_400x400_mod)
              11 tt)
    ++ events (set_cmd_rm69080 (H := steady_host)
                 (skipn 11 rm69080_400x400_mod) 3 tt).
Proof.
  split; [reflexivity|].
  exact (proj1 (set_cmd_rm69080_app (H := steady_host)
                  (firstn 11 rm69080_400x400_mod)
                  (skipn 11 rm69080_400x400_mod) tt eq_refl)).
Defined.

Lemma set_cmd_rm69080_refusal_hides_tail_witness :
  write_fails_at (H := scripted_host) (firstn 3 rm69080_400x400_mod) 2
    third_write_refused = Some (- EIO) /\
  set_cmd_rm69080 (H := scripted_host) rm69080_400x400_mod
    (COUNT_CMD rm69080_400x400_mod) third_write_refused =
  set_cmd_rm69080 (H := scripted_host) (firstn 3 rm69080_400x400_mod) 3
    third_write_refused.
Proof.
  split; [reflexivity|].
  exact (set_cmd_rm69080_refusal_hides_tail (H := scripted_host)
           (firstn 3 rm69080_400x400_mod) (skipn 3 rm69080_400x400_mod)
           2 third_write_refused (- EIO) eq_refl).
Defined.

Lemma lifecycle_second_call_is_noop_witness :
  OpUnprepare <> OpPrepare /\
  hw (events
        (rm69080_unprepare (H := scripted_host)
           (snd (value (rm69080_unprepare (H := scripted_host)
                          {| prepared := true; enabled := false |}
                          teardown_refused)))
           (host (rm69080_unprepare (H := scripted_host)
                    {| prepared := true; enabled := false |}
                    teardown_refused)))) = [].
Proof.
  assert (Ho : OpUnprepare <> OpPrepare) by discriminate.
  split; [exact Ho|].
  exact (proj2 (proj2 (lifecycle_second_call_is_noop (H := scripted_host)
                         OpUnprepare {| prepared := true; enabled := false |}
                         teardown_refused Ho))).
Defined.

Lemma rm69080_prepare_returns_zero_iff_witness :
  fst (value (rm69080_prepare (H := scripted_host) rm69080_zeroed
                exit_sleep_refused)) <> 0 /\
  snd (value (rm69080_prepare (H := scripted_host) rm69080_zeroed
                exit_sleep_refused)) = rm69080_zeroed.
Proof.
  assert (Hne : fst (value (rm69080_prepare (H := scripted_host) rm69080_zeroed
                              exit_sleep_refused)) <> 0)
    by (vm_compute; discriminate).
  split; [exact Hne|].
  exact (proj2 (proj2 (rm69080_prepare_returns_zero_iff (H := scripted_host)
                         rm69080_zeroed exit_sleep_refused)) Hne).
Defined.


Lemma disable_unprepare_prepare_cycle_witness :
  never_refuses (H := steady_host) /\
  final (H := steady_host) [OpDisable; OpUnprepare; OpPrepare]
    {| prepared := false; enabled := true |} tt =
    {| prepared := true; enabled := false |}.
Proof.
  split; [exact steady_host_never_refuses|].
  exact (proj1 (disable_unprepare_prepare_cycle (H := steady_host)
                  {| prepared := false; enabled := true |} tt tt
                  steady_host_never_refuses)).
Defined.

Lemma teardown_undoes_bringup_witness :
  prepared rm69080_zeroed = false /\
  snd (value (rm69080_unprepare (H := scripted_host)
                (snd (value (rm69080_prepare (H := scripted_host)
                               rm69080_zeroed display_on_refused)))
                teardown_refused)) = rm69080_zeroed /\
  enabled rm69080_zeroed = false /\
  snd (value (rm69080_disable (B := list (option Z))
                (snd (value (rm69080_enable (B := list (option Z))
                               rm69080_zeroed display_on_refused)))
                teardown_refused)) = rm69080_zeroed.
Proof.
  destruct (teardown_undoes_bringup (H := scripted_host) rm69080_zeroed
              display_on_refused teardown_refused) as [Hp He].
  split; [reflexivity|]. split; [exact (Hp eq_refl)|].
  split; [reflexivity|exact (He eq_refl)].
Defined.

Lemma rm69080_get_modes_twice_witness :
  mode_alloc_ok (dev (empty_connector true)) = true /\
  exists c1 c2,
    value (rm69080_get_modes (B := unit) vrefresh_60 name_400x400
             rm69080_zeroed (empty_connector true) tt) = Returns (1, c1) /\
    value (rm69080_get_modes (B := unit) vrefresh_60 name_400x400
             rm69080_zeroed c1 tt) = Returns (1, c2) /\
    List.length (probed_modes c2) = 2%nat.
Proof.
  split; [reflexivity|].
  destruct (rm69080_get_modes_twice (B := unit) vrefresh_60 name_400x400
              rm69080_zeroed (empty_connector true) tt tt eq_refl)
    as (c1 & c2 & H1 & H2 & _ & H4).
  exists c1, c2. split; [exact H1|]. split; [exact H2|].
  rewrite H4. reflexivity.
Defined.

Lemma rm69080_get_modes_resets_physical_size_witness :
  value (rm69080_get_modes (B := unit) vrefresh_60 name_400x400
           rm69080_zeroed (mk_connector (mk_device true) 35 35 []) tt) =
    Returns
      (1, mk_connector (mk_device true) 0 0
            [with_type
               (drm_mode_set_name name_400x400
                  (nth 0 rm69080_modes drm_display_mode_zero))
               DRM_MODE_TYPE_DRIVER]) /\
  display_info_width_mm
    (mk_connector (mk_device true) 0 0
       [with_type
          (drm_mode_set_name name_400x400
             (nth 0 rm69080_modes drm_display_mode_zero))
          DRM_MODE_TYPE_DRIVER]) = 0.
Proof.
  split; [reflexivity|].
  exact (proj1 (proj2 (rm69080_get_modes_resets_physical_size (B := unit)
                         vrefresh_60 name_400x400 rm69080_zeroed
                         (mk_connector (mk_device true) 35 35 [])
                         (mk_connector (mk_device true) 0 0
                            [with_type
                               (drm_mode_set_name name_400x400
                                  (nth 0 rm69080_modes drm_display_mode_zero))
                               DRM_MODE_TYPE_DRIVER])
                         tt 1 eq_refl))).
Defined.

Lemma rm69080_probe_no_memory_witness :
  fst (core_call (PanelCore := logging_core false 0 0) [] DevmKzalloc) = 0 /\
  fst (fst (value (rm69080_probe (core := logging_core false 0 0)
                     (hdrs := headers_5_x) unbound_dsi []))) = -12 /\
  host (rm69080_probe (core := logging_core false 0 0)
          (hdrs := headers_5_x) unbound_dsi []) = [DevmKzalloc].
Proof.
  split; [reflexivity|].
  destruct (rm69080_probe_no_memory (core := logging_core false 0 0)
              (hdrs := headers_5_x) unbound_dsi [] eq_refl) as (Hv & _ & Hh).
  split; [exact Hv|exact Hh].
Defined.

Lemma rm69080_probe_panel_add_fails_witness :
  fst (core_call (PanelCore := logging_core true (-12) 0) [] DevmKzalloc) <> 0 /\
  fst (fst (value (rm69080_probe (core := logging_core true (-12) 0)
                     (hdrs := headers_5_x) unbound_dsi []))) = -12 /\
  host (rm69080_probe (core := logging_core true (-12) 0)
          (hdrs := headers_5_x) unbound_dsi []) =
    [DevmKzalloc; OfGraphGetNextEndpoint; DrmPanelInit 0x1000 16;
     DrmPanelAdd 0x1000].
Proof.
  assert (Hp : fst (core_call (PanelCore := logging_core true (-12) 0) []
                      DevmKzalloc) <> 0) by discriminate.
  split; [exact Hp|].
  assert (Hr : -12 <> 0) by discriminate.
  destruct (rm69080_probe_panel_add_fails (core := logging_core true (-12) 0)
              (hdrs := headers_5_x) unbound_dsi [] Hp Hr) as (Hv & Hh).
  split; [exact Hv|exact Hh].
Defined.

Lemma rm69080_probe_attach_failure_returns_zero_witness :
  fst (core_call (PanelCore := logging_core true 0 (-5)) [] DevmKzalloc) <> 0 /\
  fst (fst (value (rm69080_probe (core := logging_core true 0 (-5))
                     (hdrs := headers_5_x) unbound_dsi []))) = 0 /\
  host (rm69080_probe (core := logging_core true 0 (-5))
          (hdrs := headers_5_x) unbound_dsi []) =
    [DevmKzalloc; OfGraphGetNextEndpoint; DrmPanelInit 0x1000 16;
     DrmPanelAdd 0x1000; MipiDsiAttach (mk_dsi 2053 0 1 0);
     DrmPanelRemove 0x1000].
Proof.
  assert (Hp : fst (core_call (PanelCore := logging_core true 0 (-5)) []
                      DevmKzalloc) <> 0) by discriminate.
  split; [exact Hp|].
  assert (Ha : -5 <> 0) by discriminate.
  destruct (rm69080_probe_attach_failure_returns_zero
              (core := logging_core true 0 (-5)) (hdrs := headers_5_x)
              unbound_dsi [] Hp eq_refl) as (Hv & Hfail & _).
  split; [exact Hv|exact (proj1 (Hfail Ha))].
Defined.

Lemma rm69080_probe_device_and_return_witness :
  fst (fst (value (rm69080_probe (core := logging_core false 0 0)
                     (hdrs := headers_5_x) unbound_dsi []))) <> 0 /\
  (fst (core_call (PanelCore := logging_core false 0 0) [] DevmKzalloc) = 0 /\
   fst (fst (value (rm69080_probe (core := logging_core false 0 0)
                      (hdrs := headers_5_x) unbound_dsi []))) = -12 \/
   fst (core_call (PanelCore := logging_core false 0 0) [] DevmKzalloc) <> 0 /\
   0 <> 0 /\
   fst (fst (value (rm69080_probe (core := logging_core false 0 0)
                      (hdrs := headers_5_x) unbound_dsi []))) = 0).
Proof.
  assert (Hne : fst (fst (value (rm69080_probe (core := logging_core false 0 0)
                                   (hdrs := headers_5_x) unbound_dsi []))) <> 0)
    by discriminate.
  split; [exact Hne|].
  exact (proj1 (proj2 (rm69080_probe_device_and_return
                         (core := logging_core false 0 0) (hdrs := headers_5_x)
                         unbound_dsi [])) Hne).
Defined.

Lemma rm69080_remove_after_probe_witness :
  drvdata unbound_dsi = 0 /\
  snd (value (rm69080_probe (core := logging_core true 0 0)
                (hdrs := headers_5_x) unbound_dsi [])) =
    Some (0x1000, rm69080_zeroed) /\
  panel_base (drvdata unbound_dsi) <> panel_base 0x1000.
Proof.
  split; [reflexivity|]. split; [reflexivity|].
  exact (proj2 (proj2 (proj2 (rm69080_remove_after_probe
                                (core := logging_core true 0 0)
                                (hdrs := headers_5_x) unbound_dsi [])))
           eq_refl 0x1000 rm69080_zeroed eq_refl).
Defined.
